(** * InAppUpdatesNative: the Android in-app-update bridge

    A shallow embedding of [src/lib/InAppUpdatesNative.ts] and the
    properties of its update-decision engine and of its event
    distribution core.

    JavaScript objects are finite maps from field names to values,
    the listener registries are finite sets of callback references, and
    the effects of a method (calls into the native module, calls of the
    caller-supplied functions, deliveries to listeners) are recorded in a
    trace that is threaded through a small state-and-exception monad. *)

From Stdlib Require Import ZArith String Ascii List Bool Lia.
From stdpp Require Import base option gmap strings list fin_maps fin_sets pretty.

Local Open Scope string_scope.
Local Open Scope list_scope.
Local Open Scope Z_scope.

(** ** The fragment of JavaScript the file relies on *)

Module Js.

(** Numbers.  The native side only hands over integers and digit
    strings, and [parseInt] only produces integers or [NaN], so a
    number is an exact integer or [NaN] (doubles agree with this for
    magnitudes up to 2^53). *)
Inductive number :=
| NaN
| Int (z : Z).

Inductive value :=
| VUndefined
| VNull
| VBool (b : bool)
| VNumber (n : number)
| VString (s : string).

#[global] Instance number_eq_dec : EqDecision number.
Proof. solve_decision. Defined.

#[global] Instance value_eq_dec : EqDecision value.
Proof. solve_decision. Defined.

(** ToBoolean: the falsy values are [undefined], [null], [false],
    [0], [NaN] and the empty string. *)
Definition truthy (v : value) : bool :=
  match v with
  | VUndefined | VNull => false
  | VBool b => b
  | VNumber NaN => false
  | VNumber (Int z) => negb (z =? 0)
  | VString s => negb (String.eqb s "")
  end.

(** ToString, as used by template literals and by [parseInt]. *)
Definition ToString (v : value) : string :=
  match v with
  | VUndefined => "undefined"
  | VNull => "null"
  | VBool true => "true"
  | VBool false => "false"
  | VNumber NaN => "NaN"
  | VNumber (Int z) => pretty z
  | VString s => s
  end.

(** [a === b] on primitive values. *)
Definition strict_equal (a b : value) : bool :=
  match a, b with
  | VUndefined, VUndefined => true
  | VNull, VNull => true
  | VBool x, VBool y => Bool.eqb x y
  | VNumber (Int x), VNumber (Int y) => x =? y
  | VString x, VString y => String.eqb x y
  | _, _ => false
  end.

(** [n > 0]. *)
Definition gt0 (n : number) : bool :=
  match n with
  | NaN => false
  | Int z => 0 <? z
  end.

(** Objects with primitive fields; reading an absent field gives
    [undefined]. *)
Abbreviation obj := (gmap string value).

Definition get (o : obj) (k : string) : value := default VUndefined (o !! k).

(** [{ ...o }] where [o] may be [null] or [undefined]. *)
Definition spread (o : option obj) : obj := default ∅ o.

(** *** parseInt

    The result is the exact integer: it is not rounded to a double, so
    it is the number the code has for the integers a JavaScript number
    holds exactly (up to 2^53 - 1 in magnitude), which is where the
    properties below state a value. *)

Definition code (c : ascii) : Z := Z.of_N (N_of_ascii c).

(** White space and line terminators among the code units below 256. *)
Definition isWhiteSpace (c : ascii) : bool :=
  let n := code c in
  ((9 <=? n) && (n <=? 13)) || (n =? 32) || (n =? 160).

Fixpoint trimStart (s : string) : string :=
  match s with
  | String c s' => if isWhiteSpace c then trimStart s' else s
  | EmptyString => s
  end.

Definition digitOf (c : ascii) : option Z :=
  let n := code c in
  if (48 <=? n) && (n <=? 57) then Some (n - 48)
  else if (97 <=? n) && (n <=? 122) then Some (n - 87)
  else if (65 <=? n) && (n <=? 90) then Some (n - 55)
  else None.

Definition radixDigit (R : Z) (c : ascii) : option Z :=
  match digitOf c with
  | Some d => if d <? R then Some d else None
  | None => None
  end.

(** The value of the longest prefix of radix-[R] digits, [None] when
    that prefix is empty. *)
Fixpoint parseDigits (R : Z) (s : string) (acc : option Z) : option Z :=
  match s with
  | String c s' =>
      match radixDigit R c with
      | Some d => parseDigits R s' (Some (R * default 0 acc + d))
      | None => acc
      end
  | EmptyString => acc
  end.

Definition stripHexPrefix (s : string) : option string :=
  match s with
  | String "0" (String "x" r) | String "0" (String "X" r) => Some r
  | _ => None
  end.

Definition parseInt (input : value) (radix : Z) : number :=
  let inputString := trimStart (ToString input) in
  let '(sign, rest) :=
    match inputString with
    | String "-" r => (-1, r)
    | String "+" r => (1, r)
    | _ => (1, inputString)
    end in
  if negb (radix =? 0) && ((radix <? 2) || (36 <? radix)) then NaN
  else
    let stripPrefix := (radix =? 0) || (radix =? 16) in
    let '(R, digits) :=
      match (if stripPrefix then stripHexPrefix rest else None) with
      | Some r => (16, r)
      | None => (if radix =? 0 then 10 else radix, rest)
      end in
    match parseDigits R digits None with
    | Some n => Int (sign * n)
    | None => NaN
    end.

End Js.

Import Js.

(** ** Effects: the instance state, the trace and exceptions *)

(** A listener is identified by the reference of its callback. *)
Abbreviation callback := nat.

(** What can be thrown, or be the reason of a rejected promise: a value
    raised by foreign code (the native module, a caller-supplied
    function), or an error raised by [throwError] for an operation. *)
Inductive exn :=
| Raw (v : value)
| Tagged (scope : string) (cause : exn).

(** The observable actions of the bridge, in the order they happen. *)
Inductive effect :=
| NativeCheckNeedsUpdate
| NativeStartUpdate (updateType : value)
| NativeInstallUpdate
| NativeSetStatusUpdateSubscription (enabled : bool)
| ToSemverConverterCall (versionCode : value)
| CustomVersionComparatorCall (a b : value)
| CompareVersionsCall (a b : value)
| ListenerCall (cb : callback) (event : obj).

#[global] Instance exn_eq_dec : EqDecision exn.
Proof. solve_decision. Defined.

#[global] Instance effect_eq_dec : EqDecision effect.
Proof. solve_decision. Defined.

(** The fields of an [InAppUpdatesNative] instance (both registries are
    declared by [InAppUpdatesBase]) together with the trace. *)
Record world := World {
  statusUpdateListeners : gset callback;
  resultListeners : gset callback;
  trace : list effect;
}.

Inductive outcome (A : Type) :=
| Returns (a : A)
| Throws (e : exn).
Arguments Returns {A} a.
Arguments Throws {A} e.

Definition M (A : Type) : Type := world → outcome A * world.

#[global] Instance M_ret : MRet M := λ A a w, (Returns a, w).

#[global] Instance M_bind : MBind M := λ A B f m w,
  match m w with
  | (Returns a, w') => f a w'
  | (Throws e, w') => (Throws e, w')
  end.

Definition throw {A} (e : exn) : M A := λ w, (Throws e, w).

Definition log (e : effect) : M unit := λ w,
  (Returns tt,
   World (statusUpdateListeners w) (resultListeners w) (trace w ++ [e])).

Definition getStatusUpdateListeners : M (gset callback) :=
  λ w, (Returns (statusUpdateListeners w), w).

Definition setStatusUpdateListeners (r : gset callback) : M unit :=
  λ w, (Returns tt, World r (resultListeners w) (trace w)).

Definition getResultListeners : M (gset callback) :=
  λ w, (Returns (resultListeners w), w).

Definition setResultListeners (r : gset callback) : M unit :=
  λ w, (Returns tt, World (statusUpdateListeners w) r (trace w)).

(** A caller-supplied function either returns or throws a value. *)
Inductive completion (A : Type) :=
| Normal (a : A)
| Abrupt (v : value).
Arguments Normal {A} a.
Arguments Abrupt {A} v.

Definition run {A} (c : completion A) : M A :=
  match c with
  | Normal a => mret a
  | Abrupt v => throw (Raw v)
  end.

(** A promise, seen at the time it is settled. *)
Inductive promise (A : Type) :=
| Fulfilled (a : A)
| Rejected (e : exn).
Arguments Fulfilled {A} a.
Arguments Rejected {A} e.

(** [p.then(onFulfilled)]: an exception of the handler rejects the
    resulting promise. *)
Definition then_ {A B} (p : promise A) (onFulfilled : A → M B)
  : M (promise B) := λ w,
  match p with
  | Fulfilled a =>
      match onFulfilled a w with
      | (Returns b, w') => (Returns (Fulfilled b), w')
      | (Throws e, w') => (Returns (Rejected e), w')
      end
  | Rejected e => (Returns (Rejected e), w)
  end.

(** [p.catch(onRejected)]. *)
Definition catch_ {A} (p : promise A) (onRejected : exn → M A)
  : M (promise A) := λ w,
  match p with
  | Fulfilled a => (Returns (Fulfilled a), w)
  | Rejected e =>
      match onRejected e w with
      | (Returns a, w') => (Returns (Fulfilled a), w')
      | (Throws e', w') => (Returns (Rejected e'), w')
      end
  end.

(** ** The collaborators that are not part of the file *)

(** Modelled from the spec: the listener registry used by
    [InAppUpdatesBase] ([addListener], [removeListener], [hasListeners],
    [emitEvent]) is missing from the sources.  The spec describes it as a
    set-like collection keyed by the callback reference: registering the
    same reference twice is idempotent, and an emission calls each
    registered callback exactly once, in no particular order. *)
Module Listeners.

Definition addListener (cb : callback) (r : gset callback) : gset callback :=
  {[cb]} ∪ r.

Definition removeListener (cb : callback) (r : gset callback) : gset callback :=
  r ∖ {[cb]}.

Definition hasListeners (r : gset callback) : bool :=
  bool_decide (r ≠ ∅).

Definition emitEvent (r : gset callback) (event : obj) : M unit := λ w,
  (Returns tt,
   World (statusUpdateListeners w) (resultListeners w)
     (trace w ++ map (λ cb, ListenerCall cb event) (elements r))).

End Listeners.

(** Modelled from the spec: [throwError] of [InAppUpdatesBase] is missing
    from the sources.  The spec has every failure surface to the caller
    as an error tagged with the name of the originating operation, so
    [throwError err scope] never returns: it throws [err] tagged with
    [scope]. *)
Definition throwError {A} (err : exn) (scope : string) : M A :=
  throw (Tagged scope err).

(** The native module [SpInAppUpdates]: the constants it exports (Java
    [int]s) and the way its two promises settle. *)
Module Native.

Record t := {
  UPDATE_AVAILABLE : Z;
  UPDATE_NOT_AVAILABLE : Z;
  UPDATE_UNKNOWN : Z;
  DEVELOPER_TRIGGERED_UPDATE_IN_PROGRESS : Z;
  UPDATE_CANCELED : Z;
  UPDATE_DOWNLOADED : Z;
  UPDATE_DOWNLOADING : Z;
  UPDATE_FAILED : Z;
  UPDATE_INSTALLED : Z;
  UPDATE_INSTALLING : Z;
  UPDATE_PENDING : Z;
  APP_UPDATE_IMMEDIATE : Z;
  APP_UPDATE_FLEXIBLE : Z;
  checkNeedsUpdate : promise (option obj);
  startUpdate : value → promise value;
}.

End Native.

(** ** The types of the file *)

Record UpdateStatus := {
  AVAILABLE : value;
  UNAVAILABLE : value;
  UNKNOWN : value;
  DEVELOPER_TRIGGERED : value;
  UPDATE_CANCELED : value;
  UPDATE_DOWNLOADED : value;
  UPDATE_DOWNLOADING : value;
  UPDATE_FAILED : value;
  UPDATE_INSTALLED : value;
  UPDATE_INSTALLING : value;
  UPDATE_PENDING : value;
}.

Record UpdateType := {
  IMMEDIATE : value;
  FLEXIBLE : value;
}.

Record CheckOptions := {
  curVersion : value;
  toSemverConverter : option (value → completion value);
  customVersionComparator : option (value → value → completion number);
}.

Record NeedsUpdateResponseNative := {
  shouldUpdate : bool;
  storeVersion : option value;
  reason : option string;
  other : obj;
}.

Record StartUpdateOptionsAndroid := {
  updateType : value;
}.

(** ** The class [InAppUpdatesNative] *)

Section InAppUpdatesNative.

Context (SpInAppUpdates : Native.t).

(** [compareVersions] of [./utils], which is not part of the sources:
    any function of two versions that returns a number or throws. *)
Context (compareVersions : value → value → completion number).

Definition constant (z : Z) : value := VNumber (Int z).

Definition UPDATE_STATUS : UpdateStatus := {|
  AVAILABLE := constant (Native.UPDATE_AVAILABLE SpInAppUpdates);
  UNAVAILABLE := constant (Native.UPDATE_NOT_AVAILABLE SpInAppUpdates);
  UNKNOWN := constant (Native.UPDATE_UNKNOWN SpInAppUpdates);
  DEVELOPER_TRIGGERED :=
    constant (Native.DEVELOPER_TRIGGERED_UPDATE_IN_PROGRESS SpInAppUpdates);
  UPDATE_CANCELED := constant (Native.UPDATE_CANCELED SpInAppUpdates);
  UPDATE_DOWNLOADED := constant (Native.UPDATE_DOWNLOADED SpInAppUpdates);
  UPDATE_DOWNLOADING := constant (Native.UPDATE_DOWNLOADING SpInAppUpdates);
  UPDATE_FAILED := constant (Native.UPDATE_FAILED SpInAppUpdates);
  UPDATE_INSTALLED := constant (Native.UPDATE_INSTALLED SpInAppUpdates);
  UPDATE_INSTALLING := constant (Native.UPDATE_INSTALLING SpInAppUpdates);
  UPDATE_PENDING := constant (Native.UPDATE_PENDING SpInAppUpdates);
|}.

Definition UPDATE_TYPE : UpdateType := {|
  IMMEDIATE := constant (Native.APP_UPDATE_IMMEDIATE SpInAppUpdates);
  FLEXIBLE := constant (Native.APP_UPDATE_FLEXIBLE SpInAppUpdates);
|}.

(** Calls into the native module. *)
Definition SpInAppUpdates_checkNeedsUpdate : M (promise (option obj)) :=
  log NativeCheckNeedsUpdate;;
  mret (Native.checkNeedsUpdate SpInAppUpdates).

Definition SpInAppUpdates_startUpdate (updateType : value)
  : M (promise value) :=
  log (NativeStartUpdate updateType);;
  mret (Native.startUpdate SpInAppUpdates updateType).

Definition SpInAppUpdates_installUpdate : M unit :=
  log NativeInstallUpdate.

Definition SpInAppUpdates_setStatusUpdateSubscription (enabled : bool)
  : M unit :=
  log (NativeSetStatusUpdateSubscription enabled).

(** Lines 60-62. *)
Definition onIncomingNativeResult (event : obj) : M unit :=
  r ← getResultListeners;
  Listeners.emitEvent r event.

(** Lines 64-74. *)
Definition onIncomingNativeStatusUpdate (event : obj) : M unit :=
  let bytesDownloaded := get event "bytesDownloaded" in
  let totalBytesToDownload := get event "totalBytesToDownload" in
  let bytesDownloaded := VNumber (parseInt bytesDownloaded 10) in
  let totalBytesToDownload := VNumber (parseInt totalBytesToDownload 10) in
  r ← getStatusUpdateListeners;
  Listeners.emitEvent r
    (<["totalBytesToDownload" := totalBytesToDownload]>
       (<["bytesDownloaded" := bytesDownloaded]> event)).

(** Lines 76-81. *)
Definition addStatusUpdateListener (cb : callback) : M unit :=
  r ← getStatusUpdateListeners;
  setStatusUpdateListeners (Listeners.addListener cb r);;
  r ← getStatusUpdateListeners;
  if Listeners.hasListeners r
  then SpInAppUpdates_setStatusUpdateSubscription true
  else mret tt.

(** Lines 83-88. *)
Definition removeStatusUpdateListener (cb : callback) : M unit :=
  r ← getStatusUpdateListeners;
  setStatusUpdateListeners (Listeners.removeListener cb r);;
  r ← getStatusUpdateListeners;
  if negb (Listeners.hasListeners r)
  then SpInAppUpdates_setStatusUpdateSubscription false
  else mret tt.

(** Lines 90-96. *)
Definition addIntentSelectionListener (cb : callback) : M unit :=
  r ← getResultListeners;
  setResultListeners (Listeners.addListener cb r).

Definition removeIntentSelectionListener (cb : callback) : M unit :=
  r ← getResultListeners;
  setResultListeners (Listeners.removeListener cb r).

(** The interpolation [toSemverConverter ? ` - originated from
    ${versionCode}` : ''] of line 140. *)
Definition originNote (converterGiven : bool) (versionCode : value) : string :=
  if converterGiven then " - originated from " +:+ ToString versionCode
  else "".

(** The handler given to [.then] (lines 113-149). *)
Definition onAvailabilityInfo (curVersion : value)
    (toSemverConverter : option (value → completion value))
    (customVersionComparator : option (value → value → completion number))
    (inAppUpdateInfo : option obj) : M NeedsUpdateResponseNative :=
  let info := default ∅ inAppUpdateInfo in
  let updateAvailability := get info "updateAvailability" in
  let versionCode := get info "versionCode" in
  if strict_equal updateAvailability (AVAILABLE UPDATE_STATUS) then
    newAppV ←
      match toSemverConverter with
      | Some convert =>
          newAppV ← (log (ToSemverConverterCall versionCode);;
                     run (convert versionCode));
          (if negb (truthy newAppV)
           then throwError
                  (Raw (VString ("Couldnt convert " +:+ ToString versionCode
                          +:+ " using your custom semver converter")))
                  "checkNeedsUpdate"
           else mret tt);;
          mret newAppV
      | None => mret versionCode
      end;
    vCompRes ←
      match customVersionComparator with
      | Some compare =>
          log (CustomVersionComparatorCall newAppV curVersion);;
          run (compare newAppV curVersion)
      | None =>
          log (CompareVersionsCall newAppV curVersion);;
          run (compareVersions newAppV curVersion)
      end;
    if gt0 vCompRes then
      mret {| shouldUpdate := true;
              storeVersion := Some newAppV;
              reason := None;
              other := spread inAppUpdateInfo |}
    else
      mret {| shouldUpdate := false;
              storeVersion := Some newAppV;
              reason := Some
                ("current version (" +:+ ToString curVersion
                 +:+ ") is already later than the latest store version ("
                 +:+ ToString newAppV
                 +:+ originNote (bool_decide (is_Some toSemverConverter))
                       versionCode
                 +:+ ")");
              other := spread inAppUpdateInfo |}
  else
    mret {| shouldUpdate := false;
            storeVersion := None;
            reason := Some
              ("status: " +:+ ToString updateAvailability
               +:+ " means there's no new version available");
            other := spread inAppUpdateInfo |}.

(** Lines 101-153.  [checkOptions || {}]: absent options read as an
    object without fields. *)
Definition checkNeedsUpdate (checkOptions : option CheckOptions)
  : M (promise NeedsUpdateResponseNative) :=
  let curVersion := from_option curVersion VUndefined checkOptions in
  let toSemverConverter := checkOptions ≫= toSemverConverter in
  let customVersionComparator := checkOptions ≫= customVersionComparator in
  (if negb (truthy curVersion)
   then throwError
          (Raw (VString "You have to include at least the curVersion to the options passed in checkNeedsUpdate"))
          "checkNeedsUpdate"
   else mret tt);;
  p ← SpInAppUpdates_checkNeedsUpdate;
  p ← then_ p (onAvailabilityInfo curVersion toSemverConverter
                 customVersionComparator);
  catch_ p (λ err, throwError err "checkNeedsUpdate").

(** Lines 159-170. *)
Definition startUpdate (updateOptions : option StartUpdateOptionsAndroid)
  : M (promise value) :=
  let updateType := from_option updateType VUndefined updateOptions in
  (if negb (strict_equal updateType (FLEXIBLE UPDATE_TYPE))
      && negb (strict_equal updateType (IMMEDIATE UPDATE_TYPE))
   then throwError
          (Raw (VString ("updateType should be one of: "
                  +:+ ToString (FLEXIBLE UPDATE_TYPE) +:+ " or "
                  +:+ ToString (IMMEDIATE UPDATE_TYPE) +:+ ", "
                  +:+ ToString updateType +:+ " was passed.")))
          "startUpdate"
   else mret tt);;
  p ← SpInAppUpdates_startUpdate updateType;
  catch_ p (λ err, throwError err "startUpdate").

(** Lines 172-174. *)
Definition installUpdate : M unit := SpInAppUpdates_installUpdate.

End InAppUpdatesNative.

(** ** The default comparator *)

(** Modelled from the spec: [compareVersions] of [./utils] is missing
    from the sources.  The spec has it compare two semantic version
    strings (dot-separated non-negative integers) component by component
    from the left, a missing trailing component counting as zero, and
    fail with a parsing error on a malformed component. *)
Module Utils.

Fixpoint splitDots (s : string) (component : string) : list string :=
  match s with
  | String "." s' => component :: splitDots s' ""
  | String c s' => splitDots s' (component +:+ String c "")
  | EmptyString => [component]
  end.

Fixpoint allDigits (s : string) : bool :=
  match s with
  | String c s' => bool_decide (is_Some (radixDigit 10 c)) && allDigits s'
  | EmptyString => true
  end.

Definition parseComponent (s : string) : option Z :=
  if allDigits s then parseDigits 10 s None else None.

Definition parseVersion (v : value) : option (list Z) :=
  match v with
  | VString s => mapM parseComponent (splitDots s "")
  | _ => None
  end.

Fixpoint compareComponents (xs ys : list Z) : Z :=
  match xs, ys with
  | [], [] => 0
  | x :: xs', [] => if 0 <? x then 1 else compareComponents xs' []
  | [], y :: ys' =>
      if 0 <? y then -1
      else (fix rest (l : list Z) : Z :=
              match l with
              | [] => 0
              | z :: l' => if 0 <? z then -1 else rest l'
              end) ys'
  | x :: xs', y :: ys' =>
      if y <? x then 1
      else if x <? y then -1
      else compareComponents xs' ys'
  end.

Definition compareVersions (a b : value) : completion number :=
  match parseVersion a, parseVersion b with
  | Some xs, Some ys => Normal (Int (compareComponents xs ys))
  | _, _ => Abrupt (VString "invalid version")
  end.

End Utils.

(** ** Running the class *)

Definition exec {A} (m : M A) (w : world) : world := (m w).2.

(** A freshly constructed instance: both registries empty. *)
Definition fresh : world := World ∅ ∅ [].

(** A sample native module, with the constants of the Play Core library
    ([UpdateAvailability], [InstallStatus], [AppUpdateType]); the
    availability query settles as [reply], [startUpdate] succeeds. *)
Definition playCore (reply : promise (option obj)) : Native.t := {|
  Native.UPDATE_AVAILABLE := 2;
  Native.UPDATE_NOT_AVAILABLE := 1;
  Native.UPDATE_UNKNOWN := 0;
  Native.DEVELOPER_TRIGGERED_UPDATE_IN_PROGRESS := 3;
  Native.UPDATE_CANCELED := 6;
  Native.UPDATE_DOWNLOADED := 11;
  Native.UPDATE_DOWNLOADING := 2;
  Native.UPDATE_FAILED := 5;
  Native.UPDATE_INSTALLED := 4;
  Native.UPDATE_INSTALLING := 3;
  Native.UPDATE_PENDING := 1;
  Native.APP_UPDATE_IMMEDIATE := 1;
  Native.APP_UPDATE_FLEXIBLE := 0;
  Native.checkNeedsUpdate := reply;
  Native.startUpdate := λ _, Fulfilled VUndefined;
|}.

Definition availabilityInfo (updateAvailability versionCode : value) : obj :=
  <["updateAvailability" := updateAvailability]>
    (<["versionCode" := versionCode]> ∅).

(** Calls of the two status-listener methods, to run sequences of them. *)
Inductive listenerOp :=
| AddStatus (cb : callback)
| RemoveStatus (cb : callback).

Definition isAdd (op : listenerOp) : bool :=
  match op with
  | AddStatus _ => true
  | RemoveStatus _ => false
  end.

Definition step (op : listenerOp) : M unit :=
  match op with
  | AddStatus cb => addStatusUpdateListener cb
  | RemoveStatus cb => removeStatusUpdateListener cb
  end.

Fixpoint steps (ops : list listenerOp) : M unit :=
  match ops with
  | [] => mret tt
  | op :: ops' => step op;; steps ops'
  end.

(** At least one status listener is registered before the sequence
    and after each of its calls. *)
Fixpoint alwaysListening (ops : list listenerOp) (w : world) : Prop :=
  statusUpdateListeners w ≠ ∅ ∧
  match ops with
  | [] => True
  | op :: ops' => alwaysListening ops' (exec (step op) w)
  end.

(** The calls of [setStatusUpdateSubscription] in a trace. *)
Definition subscriptionCalls (t : list effect) : list bool :=
  omap (λ e, match e with
             | NativeSetStatusUpdateSubscription b => Some b
             | _ => None
             end) t.

(** The version comparisons (default or custom) in a trace. *)
Definition isComparison (e : effect) : bool :=
  match e with
  | CustomVersionComparatorCall _ _ | CompareVersionsCall _ _ => true
  | _ => false
  end.

Definition isNativeCall (e : effect) : bool :=
  match e with
  | NativeCheckNeedsUpdate | NativeStartUpdate _ | NativeInstallUpdate
  | NativeSetStatusUpdateSubscription _ => true
  | _ => false
  end.

(** Sample calls for the examples. *)
Definition storeReports (updateAvailability versionCode : value) : Native.t :=
  playCore (Fulfilled (Some (availabilityInfo updateAvailability versionCode))).

Definition optionsWith (cur : value)
    (convert : option (value → completion value)) : option CheckOptions :=
  Some {| curVersion := cur;
          toSemverConverter := convert;
          customVersionComparator := None |}.

(** A converter that hands the native version back as it is. *)
Definition sameVersion (versionCode : value) : completion value :=
  Normal versionCode.

(** A converter that knows no version. *)
Definition noVersion (versionCode : value) : completion value :=
  Normal (VString "").

(** ** Sessions: the public methods and the incoming events, in any order *)

Definition isListenerCall (e : effect) : bool :=
  match e with
  | ListenerCall _ _ => true
  | _ => false
  end.

(** What [checkNeedsUpdate] may do: query the native module and call the
    caller's functions. *)
Definition isCheckEffect (e : effect) : bool :=
  match e with
  | NativeCheckNeedsUpdate | ToSemverConverterCall _
  | CustomVersionComparatorCall _ _ | CompareVersionsCall _ _ => true
  | _ => false
  end.

(** Calls of the functions the caller passes in the options. *)
Definition isCallerFunction (e : effect) : bool :=
  match e with
  | ToSemverConverterCall _
  | CustomVersionComparatorCall _ _ | CompareVersionsCall _ _ => true
  | _ => false
  end.

Definition isStartUpdateCall (e : effect) : bool :=
  match e with
  | NativeStartUpdate _ => true
  | _ => false
  end.

(** One use of the instance: a call of a public method, or an event
    coming in from the native side. *)
Inductive apiCall :=
| CallAddStatusUpdateListener (cb : callback)
| CallRemoveStatusUpdateListener (cb : callback)
| CallAddIntentSelectionListener (cb : callback)
| CallRemoveIntentSelectionListener (cb : callback)
| CallCheckNeedsUpdate (checkOptions : option CheckOptions)
| CallStartUpdate (updateOptions : option StartUpdateOptionsAndroid)
| CallInstallUpdate
| IncomingStatusUpdate (event : obj)
| IncomingResult (event : obj).

Definition isIncomingEvent (c : apiCall) : bool :=
  match c with
  | IncomingStatusUpdate _ | IncomingResult _ => true
  | _ => false
  end.

Definition touchesStatusListeners (c : apiCall) : bool :=
  match c with
  | CallAddStatusUpdateListener _ | CallRemoveStatusUpdateListener _ => true
  | _ => false
  end.

Definition touchesResultListeners (c : apiCall) : bool :=
  match c with
  | CallAddIntentSelectionListener _
  | CallRemoveIntentSelectionListener _ => true
  | _ => false
  end.

Section Sessions.

Context (SpInAppUpdates : Native.t).
Context (compareVersions : value → value → completion number).

(** The instance after one use; an exception or a rejection is the
    caller's to handle and leaves the instance as it is at that point. *)
Definition perform (c : apiCall) (w : world) : world :=
  match c with
  | CallAddStatusUpdateListener cb => exec (addStatusUpdateListener cb) w
  | CallRemoveStatusUpdateListener cb => exec (removeStatusUpdateListener cb) w
  | CallAddIntentSelectionListener cb => exec (addIntentSelectionListener cb) w
  | CallRemoveIntentSelectionListener cb =>
      exec (removeIntentSelectionListener cb) w
  | CallCheckNeedsUpdate checkOptions =>
      exec (checkNeedsUpdate SpInAppUpdates compareVersions checkOptions) w
  | CallStartUpdate updateOptions =>
      exec (startUpdate SpInAppUpdates updateOptions) w
  | CallInstallUpdate => exec installUpdate w
  | IncomingStatusUpdate event => exec (onIncomingNativeStatusUpdate event) w
  | IncomingResult event => exec (onIncomingNativeResult event) w
  end.

Definition session (cs : list apiCall) (w : world) : world :=
  fold_left (λ w c, perform c w) cs w.

End Sessions.

(** [m] leaves both registries alone and adds only effects in [P] to the
    trace. *)
Definition only {A} (P : effect → bool) (m : M A) : Prop :=
  ∀ w, ∃ t,
    (m w).2
    = World (statusUpdateListeners w) (resultListeners w) (trace w ++ t)
    ∧ Forall (λ e, P e = true) t.

(** The last [setStatusUpdateSubscription] call agrees with the
    registry: [true] when a status listener is registered, and not
    [true] when none is. *)
Definition streamAgrees (w : world) : Prop :=
  (statusUpdateListeners w ≠ ∅ →
   last (subscriptionCalls (trace w)) = Some true)
  ∧ (statusUpdateListeners w = ∅ →
     last (subscriptionCalls (trace w)) ≠ Some true).

(** The integers a JavaScript number holds exactly. *)
Definition safeInteger (z : Z) : Prop := - (2 ^ 53 - 1) ≤ z ≤ 2 ^ 53 - 1.

(** ** Base-10 parsing, in the words of the properties *)

Definition isDecimalDigit (c : ascii) : bool :=
  (48 <=? code c) && (code c <=? 57).

Fixpoint allWhiteSpace (s : string) : bool :=
  match s with
  | String c r => isWhiteSpace c && allWhiteSpace r
  | EmptyString => true
  end.

Fixpoint allDecimalDigits (s : string) : bool :=
  match s with
  | String c r => isDecimalDigit c && allDecimalDigits r
  | EmptyString => true
  end.

Definition startsWithDecimalDigit (s : string) : bool :=
  match s with
  | String c _ => isDecimalDigit c
  | EmptyString => false
  end.

(** The integer a string of decimal digits denotes. *)
Fixpoint decimalValueFrom (acc : Z) (ds : string) : Z :=
  match ds with
  | String c r => decimalValueFrom (10 * acc + (code c - 48)) r
  | EmptyString => acc
  end.

Definition decimalValue (ds : string) : Z := decimalValueFrom 0 ds.

(** An optional sign. *)
Definition signOf (sgn : string) : option Z :=
  if String.eqb sgn "" then Some 1
  else if String.eqb sgn "+" then Some 1
  else if String.eqb sgn "-" then Some (-1)
  else None.

(** The factor a leading sign stands for. *)
Definition signFactor (s : string) : Z :=
  match s with
  | String "-" _ => -1
  | _ => 1
  end.

(** A text without its one optional leading sign. *)
Definition unsignedText (s : string) : string :=
  match s with
  | String "-" r => r
  | String "+" r => r
  | _ => s
  end.

(** The text of [v] starts no number: after the leading white space and
    one optional sign there is no decimal digit (the empty text, a lone
    sign, a word, [undefined] for a missing field). *)
Definition nonNumeric (v : value) : bool :=
  negb (startsWithDecimalDigit (unsignedText (trimStart (ToString v)))).

(** [n] is [raw] parsed as a base-10 integer: [NaN] exactly when [raw]
    is not numeric; and when the text of [raw] is white space, an
    optional sign, decimal digits and then no further digit, [n] is the
    signed integer the digits denote.  The value is stated for the
    integers a JavaScript number holds exactly. *)
Definition parsedBase10 (raw : value) (n : number) : Prop :=
  (n = NaN ↔ nonNumeric raw = true)
  ∧ ∀ (ws sgn ds rest : string) (sign : Z),
      ToString raw = ws +:+ sgn +:+ ds +:+ rest →
      allWhiteSpace ws = true →
      signOf sgn = Some sign →
      ds ≠ "" →
      allDecimalDigits ds = true →
      startsWithDecimalDigit rest = false →
      safeInteger (decimalValue ds) →
      n = Int (sign * decimalValue ds).

(** The calls of the callback [cb] in a trace. *)
Definition callsTo (cb : callback) (t : list effect) : list effect :=
  List.filter
    (λ e, match e with
          | ListenerCall c _ => bool_decide (c = cb)
          | _ => false
          end) t.

(** A converter that fails. *)
Definition unknownVersion (versionCode : value) : completion value :=
  Abrupt (VString "unknown version code").

(** A custom comparator that takes the store to be ahead, always. *)
Definition storeIsNewer (remote current : value) : completion number :=
  Normal (Int 1).

Definition optionsComparing (cur : value)
    (compare : value → value → completion number) : option CheckOptions :=
  Some {| curVersion := cur;
          toSemverConverter := None;
          customVersionComparator := Some compare |}.

(** A status event as the Java side sends it. *)
Definition downloadingEvent (bytesDownloaded totalBytesToDownload : value)
  : obj :=
  <["status" := VNumber (Int 2)]>
    (<["bytesDownloaded" := bytesDownloaded]>
       (<["totalBytesToDownload" := totalBytesToDownload]> ∅)).

(** * Properties *)

Example parseInt_1024 : parseInt (VString "1024") 10 = Int 1024.
Proof. reflexivity. Qed.

Example parseInt_number : parseInt (VNumber (Int 2048)) 10 = Int 2048.
Proof. reflexivity. Qed.

Example parseInt_prefix : parseInt (VString "  -12px") 10 = Int (-12).
Proof. reflexivity. Qed.

Example parseInt_garbage : parseInt (VString "n/a") 10 = NaN.
Proof. reflexivity. Qed.

Example parseInt_undefined : parseInt VUndefined 10 = NaN.
Proof. reflexivity. Qed.

Example parseInt_hex_radix10 : parseInt (VString "0x1f") 10 = Int 0.
Proof. reflexivity. Qed.

Example compareVersions_newer :
  Utils.compareVersions (VString "2.0.0") (VString "1.0.0") = Normal (Int 1).
Proof. reflexivity. Qed.

Example compareVersions_padding :
  Utils.compareVersions (VString "1.2") (VString "1.2.0") = Normal (Int 0).
Proof. reflexivity. Qed.

Example compareVersions_malformed :
  Utils.compareVersions (VString "1.x") (VString "1.2.0")
  = Abrupt (VString "invalid version").
Proof. reflexivity. Qed.

(** Unfolds the monadic plumbing of a method down to its result. *)
Ltac run_M :=
  unfold exec, mbind, M_bind, mret, M_ret, throwError, throw, log, run,
    getStatusUpdateListeners, setStatusUpdateListeners,
    getResultListeners, setResultListeners, Listeners.emitEvent,
    then_, catch_; simpl.

Lemma strict_equal_constant v z :
  strict_equal v (constant z) = true ↔ v = constant z.
Proof.
  unfold constant. destruct v as [| |b|[|x]|s]; simpl; split;
    try discriminate; try congruence.
  - intros H%Z.eqb_eq. by subst.
  - intros [= ->]. apply Z.eqb_refl.
Qed.

Lemma strict_equal_constant_false v z :
  strict_equal v (constant z) = false ↔ v ≠ constant z.
Proof.
  rewrite <- strict_equal_constant. destruct (strict_equal v (constant z)).
  - split; [discriminate | intros H; by destruct H].
  - split; [discriminate | done].
Qed.

Section Properties.

Context (SpInAppUpdates : Native.t).
Context (compareVersions : value → value → completion number).

Local Abbreviation UPDATE_STATUS := (UPDATE_STATUS SpInAppUpdates).
Local Abbreviation UPDATE_TYPE := (UPDATE_TYPE SpInAppUpdates).

Lemma checkNeedsUpdate_falsy_run checkOptions w :
  truthy (from_option curVersion VUndefined checkOptions) = false →
  checkNeedsUpdate SpInAppUpdates compareVersions checkOptions w
  = (Throws (Tagged "checkNeedsUpdate"
               (Raw (VString "You have to include at least the curVersion to the options passed in checkNeedsUpdate"))),
     w).
Proof.
  intros Hfalsy. unfold checkNeedsUpdate. rewrite Hfalsy. by run_M.
Qed.

(** C3.  When the options carry no [curVersion] (no options at all, the
    field absent, empty or otherwise falsy), [checkNeedsUpdate] throws
    the configuration error and leaves the instance and the trace as
    they were: the native module has not been called. *)
Theorem checkNeedsUpdate_without_curVersion
    (checkOptions : option CheckOptions) (w : world) :
  truthy (from_option curVersion VUndefined checkOptions) = false →
  checkNeedsUpdate SpInAppUpdates compareVersions checkOptions w
  = (Throws (Tagged "checkNeedsUpdate"
               (Raw (VString "You have to include at least the curVersion to the options passed in checkNeedsUpdate"))),
     w)
  ∧ List.filter isNativeCall
      (trace (exec (checkNeedsUpdate SpInAppUpdates compareVersions
                      checkOptions) w))
    = List.filter isNativeCall (trace w).
Proof.
  intros Hfalsy. unfold exec.
  by rewrite (checkNeedsUpdate_falsy_run _ _ Hfalsy).
Qed.

(** C8.  [startUpdate] with an [updateType] that is neither
    [UPDATE_TYPE.IMMEDIATE] nor [UPDATE_TYPE.FLEXIBLE] throws the
    configuration error without calling the native module; with one of
    the two, the native [startUpdate] is called once, with that very
    value, and its promise is handed on (a rejection tagged with the
    operation). *)
Theorem startUpdate_checks_updateType
    (updateOptions : option StartUpdateOptionsAndroid) (w : world) :
  (from_option updateType VUndefined updateOptions ≠ IMMEDIATE UPDATE_TYPE →
   from_option updateType VUndefined updateOptions ≠ FLEXIBLE UPDATE_TYPE →
   startUpdate SpInAppUpdates updateOptions w
   = (Throws (Tagged "startUpdate"
                (Raw (VString
                   ("updateType should be one of: "
                    +:+ ToString (FLEXIBLE UPDATE_TYPE) +:+ " or "
                    +:+ ToString (IMMEDIATE UPDATE_TYPE) +:+ ", "
                    +:+ ToString
                          (from_option updateType VUndefined updateOptions)
                    +:+ " was passed.")))),
      w))
  ∧
  (from_option updateType VUndefined updateOptions = IMMEDIATE UPDATE_TYPE ∨
   from_option updateType VUndefined updateOptions = FLEXIBLE UPDATE_TYPE →
   startUpdate SpInAppUpdates updateOptions w
   = (Returns
        match Native.startUpdate SpInAppUpdates
                (from_option updateType VUndefined updateOptions) with
        | Fulfilled v => Fulfilled v
        | Rejected e => Rejected (Tagged "startUpdate" e)
        end,
      World (statusUpdateListeners w) (resultListeners w)
        (trace w ++
         [NativeStartUpdate
            (from_option updateType VUndefined updateOptions)]))).
Proof.
  unfold startUpdate.
  set (ut := from_option updateType VUndefined updateOptions).
  split.
  - intros Hi Hf.
    apply strict_equal_constant_false in Hi, Hf.
    simpl in Hi, Hf. simpl. rewrite Hi, Hf. simpl.
    by run_M.
  - intros Hvalid.
    assert (negb (strict_equal ut (FLEXIBLE UPDATE_TYPE))
            && negb (strict_equal ut (IMMEDIATE UPDATE_TYPE)) = false) as ->.
    { destruct Hvalid as [H | H];
        apply strict_equal_constant in H; simpl in H |- *; rewrite H;
        simpl; by rewrite ?andb_false_r. }
    unfold SpInAppUpdates_startUpdate. run_M.
    by destruct (Native.startUpdate SpInAppUpdates ut).
Qed.

(** *** The update decision *)

Local Abbreviation curVersionOf o := (from_option curVersion VUndefined o).
Local Abbreviation converterOf o := (o ≫= toSemverConverter).
Local Abbreviation comparatorOf o := (o ≫= customVersionComparator).
Local Abbreviation statusOf i := (get (default ∅ i) "updateAvailability").
Local Abbreviation versionCodeOf i := (get (default ∅ i) "versionCode").

(** Past the [curVersion] check: one call of the native module, then
    the [.then] handler, whose exception [.catch] tags once more. *)
Lemma checkNeedsUpdate_run checkOptions w :
  truthy (curVersionOf checkOptions) = true →
  checkNeedsUpdate SpInAppUpdates compareVersions checkOptions w
  = match Native.checkNeedsUpdate SpInAppUpdates with
    | Fulfilled inAppUpdateInfo =>
        match onAvailabilityInfo SpInAppUpdates compareVersions
                (curVersionOf checkOptions) (converterOf checkOptions)
                (comparatorOf checkOptions) inAppUpdateInfo
                (World (statusUpdateListeners w) (resultListeners w)
                   (trace w ++ [NativeCheckNeedsUpdate])) with
        | (Returns r, w') => (Returns (Fulfilled r), w')
        | (Throws e, w') =>
            (Returns (Rejected (Tagged "checkNeedsUpdate" e)), w')
        end
    | Rejected e =>
        (Returns (Rejected (Tagged "checkNeedsUpdate" e)),
         World (statusUpdateListeners w) (resultListeners w)
           (trace w ++ [NativeCheckNeedsUpdate]))
    end.
Proof.
  intros Hcur. unfold checkNeedsUpdate, SpInAppUpdates_checkNeedsUpdate.
  rewrite Hcur. run_M.
  destruct (Native.checkNeedsUpdate SpInAppUpdates) as [info | e]; [| done].
  by destruct (onAvailabilityInfo _ _ _ _ _ _ _) as [[r | e] w'].
Qed.

(** The handler when the status is not [AVAILABLE]. *)
Lemma onAvailabilityInfo_not_available cur conv cmp info w :
  statusOf info ≠ AVAILABLE UPDATE_STATUS →
  onAvailabilityInfo SpInAppUpdates compareVersions cur conv cmp info w
  = (Returns {| shouldUpdate := false;
                storeVersion := None;
                reason := Some ("status: " +:+ ToString (statusOf info)
                            +:+ " means there's no new version available");
                other := spread info |},
     w).
Proof.
  intros Hst%strict_equal_constant_false.
  unfold onAvailabilityInfo. simpl in Hst |- *. by rewrite Hst.
Qed.

(** The handler when the status is [AVAILABLE], the conversion (if any)
    gives a usable [newAppV] and the comparison returns [n]. *)
Lemma onAvailabilityInfo_compared cur conv cmp info w newAppV n :
  statusOf info = AVAILABLE UPDATE_STATUS →
  match conv with
  | Some convert =>
      convert (versionCodeOf info) = Normal newAppV ∧ truthy newAppV = true
  | None => newAppV = versionCodeOf info
  end →
  default compareVersions cmp newAppV cur = Normal n →
  onAvailabilityInfo SpInAppUpdates compareVersions cur conv cmp info w
  = (Returns
       (if gt0 n then
          {| shouldUpdate := true;
             storeVersion := Some newAppV;
             reason := None;
             other := spread info |}
        else
          {| shouldUpdate := false;
             storeVersion := Some newAppV;
             reason := Some
               ("current version (" +:+ ToString cur
                +:+ ") is already later than the latest store version ("
                +:+ ToString newAppV
                +:+ match conv with
                    | Some _ =>
                        " - originated from " +:+ ToString (versionCodeOf info)
                    | None => ""
                    end
                +:+ ")");
             other := spread info |}),
     World (statusUpdateListeners w) (resultListeners w)
       (trace w
        ++ match conv with
           | Some _ => [ToSemverConverterCall (versionCodeOf info)]
           | None => []
           end
        ++ [match cmp with
            | Some _ => CustomVersionComparatorCall newAppV cur
            | None => CompareVersionsCall newAppV cur
            end])).
Proof.
  intros Hst%strict_equal_constant Hconv Hcmp.
  unfold onAvailabilityInfo. simpl in Hst |- *. rewrite Hst.
  destruct conv as [convert |]; simpl in *.
  - destruct Hconv as [Hconv Htruthy]. run_M.
    rewrite Hconv. run_M. rewrite Htruthy. simpl.
    destruct cmp as [compare |]; simpl in *; rewrite Hcmp; run_M;
      destruct (gt0 n); simpl; by rewrite <- app_assoc.
  - subst newAppV. run_M.
    destruct cmp as [compare |]; simpl in *; rewrite Hcmp; run_M;
      by destruct (gt0 n).
Qed.

(** The handler when the converter returns a falsy value. *)
Lemma onAvailabilityInfo_unconverted cur convert cmp info w newAppV :
  statusOf info = AVAILABLE UPDATE_STATUS →
  convert (versionCodeOf info) = Normal newAppV →
  truthy newAppV = false →
  onAvailabilityInfo SpInAppUpdates compareVersions cur (Some convert) cmp
    info w
  = (Throws (Tagged "checkNeedsUpdate"
               (Raw (VString ("Couldnt convert "
                       +:+ ToString (versionCodeOf info)
                       +:+ " using your custom semver converter")))),
     World (statusUpdateListeners w) (resultListeners w)
       (trace w ++ [ToSemverConverterCall (versionCodeOf info)])).
Proof.
  intros Hst%strict_equal_constant Hconv Hfalsy.
  unfold onAvailabilityInfo. simpl in Hst |- *. rewrite Hst.
  run_M. rewrite Hconv. run_M. by rewrite Hfalsy.
Qed.

(** The handler when the converter throws. *)
Lemma onAvailabilityInfo_conversion_throws cur convert cmp info w v :
  statusOf info = AVAILABLE UPDATE_STATUS →
  convert (versionCodeOf info) = Abrupt v →
  onAvailabilityInfo SpInAppUpdates compareVersions cur (Some convert) cmp
    info w
  = (Throws (Raw v),
     World (statusUpdateListeners w) (resultListeners w)
       (trace w ++ [ToSemverConverterCall (versionCodeOf info)])).
Proof.
  intros Hst%strict_equal_constant Hconv.
  unfold onAvailabilityInfo. simpl in Hst |- *. rewrite Hst.
  run_M. rewrite Hconv. by run_M.
Qed.

(** The handler when the comparator throws. *)
Lemma onAvailabilityInfo_comparison_throws cur conv cmp info w newAppV v :
  statusOf info = AVAILABLE UPDATE_STATUS →
  match conv with
  | Some convert =>
      convert (versionCodeOf info) = Normal newAppV ∧ truthy newAppV = true
  | None => newAppV = versionCodeOf info
  end →
  default compareVersions cmp newAppV cur = Abrupt v →
  ∃ w', onAvailabilityInfo SpInAppUpdates compareVersions cur conv cmp info w
        = (Throws (Raw v), w').
Proof.
  intros Hst%strict_equal_constant Hconv Hcmp.
  unfold onAvailabilityInfo. simpl in Hst |- *. rewrite Hst.
  destruct conv as [convert |]; simpl in *.
  - destruct Hconv as [Hconv Htruthy]. run_M.
    rewrite Hconv. run_M. rewrite Htruthy. simpl.
    destruct cmp as [compare |]; simpl in *; rewrite Hcmp; run_M; eauto.
  - subst newAppV. run_M.
    destruct cmp as [compare |]; simpl in *; rewrite Hcmp; run_M; eauto.
Qed.

Lemma gt0_positive n : gt0 n = true ↔ ∃ z, n = Int z ∧ 0 < z.
Proof.
  destruct n as [| z]; simpl; split.
  - discriminate.
  - by intros (z & ? & _).
  - intros H%Z.ltb_lt. eauto.
  - intros (z' & [= <-] & H). by apply Z.ltb_lt.
Qed.

(** C1.  In every decision record [checkNeedsUpdate] resolves to,
    [shouldUpdate] is true only if the native module reported the
    status [AVAILABLE] and the comparator in use (the custom one if
    given, else [compareVersions]) returned a strictly positive number
    for the remote version (converted if a converter is given) against
    [curVersion]; and [reason] is present exactly when [shouldUpdate]
    is false. *)
Theorem decision_record_invariant
    (checkOptions : option CheckOptions) (w w' : world)
    (r : NeedsUpdateResponseNative) :
  checkNeedsUpdate SpInAppUpdates compareVersions checkOptions w
  = (Returns (Fulfilled r), w') →
  (shouldUpdate r = true →
   ∃ inAppUpdateInfo newAppV z,
     Native.checkNeedsUpdate SpInAppUpdates = Fulfilled inAppUpdateInfo
     ∧ statusOf inAppUpdateInfo = AVAILABLE UPDATE_STATUS
     ∧ match converterOf checkOptions with
       | Some convert =>
           convert (versionCodeOf inAppUpdateInfo) = Normal newAppV
       | None => newAppV = versionCodeOf inAppUpdateInfo
       end
     ∧ default compareVersions (comparatorOf checkOptions)
         newAppV (curVersionOf checkOptions) = Normal (Int z)
     ∧ 0 < z)
  ∧ (is_Some (reason r) ↔ shouldUpdate r = false).
Proof.
  intros Hrun.
  destruct (truthy (curVersionOf checkOptions)) eqn:Hcur;
    [| by rewrite (checkNeedsUpdate_falsy_run _ _ Hcur) in Hrun].
  rewrite (checkNeedsUpdate_run _ _ Hcur) in Hrun.
  destruct (Native.checkNeedsUpdate SpInAppUpdates) as [info | e] eqn:Hreply;
    [| done].
  destruct (decide (statusOf info = AVAILABLE UPDATE_STATUS)) as [Hst | Hst].
  2: { rewrite (onAvailabilityInfo_not_available _ _ _ _ _ Hst) in Hrun.
       injection Hrun as <- _. simpl. split; [done | by split; eauto]. }
  assert (∀ newAppV,
            match converterOf checkOptions with
            | Some convert =>
                convert (versionCodeOf info) = Normal newAppV
                ∧ truthy newAppV = true
            | None => newAppV = versionCodeOf info
            end →
            (shouldUpdate r = true →
             ∃ z, default compareVersions (comparatorOf checkOptions)
                    newAppV (curVersionOf checkOptions) = Normal (Int z)
                  ∧ 0 < z)
            ∧ (is_Some (reason r) ↔ shouldUpdate r = false)) as Hcompared.
  { intros newAppV Hconv.
    destruct (default compareVersions (comparatorOf checkOptions)
                newAppV (curVersionOf checkOptions)) as [n | v] eqn:Hcmp.
    - rewrite (onAvailabilityInfo_compared _ _ _ _ _ _ _ Hst Hconv Hcmp)
        in Hrun.
      destruct (gt0 n) eqn:Hgt; injection Hrun as <- _; simpl.
      + apply gt0_positive in Hgt as (z & -> & Hz).
        split; [by eauto |]. split; [by intros [? [=]] | done].
      + split; [done | by split; eauto].
    - destruct (onAvailabilityInfo_comparison_throws
                  (curVersionOf checkOptions) _ _ _
                  (World (statusUpdateListeners w) (resultListeners w)
                     (trace w ++ [NativeCheckNeedsUpdate]))
                  _ _ Hst Hconv Hcmp) as [w1 Hthrows].
      by rewrite Hthrows in Hrun. }
  destruct (converterOf checkOptions) as [convert |] eqn:Hconverter.
  - destruct (convert (versionCodeOf info)) as [newAppV | v] eqn:Hconv.
    + destruct (truthy newAppV) eqn:Htruthy.
      * destruct (Hcompared newAppV (conj eq_refl Htruthy)) as [Hup Hreason].
        split; [| done]. intros (z & Hcmp & Hz)%Hup.
        exists info, newAppV, z. by rewrite Hconv.
      * by rewrite (onAvailabilityInfo_unconverted _ _ _ _ _ _
                      Hst Hconv Htruthy) in Hrun.
    + by rewrite (onAvailabilityInfo_conversion_throws _ _ _ _ _ _
                    Hst Hconv) in Hrun.
  - destruct (Hcompared (versionCodeOf info) eq_refl) as [Hup Hreason].
    split; [| done]. intros (z & Hcmp & Hz)%Hup.
    by exists info, (versionCodeOf info), z.
Qed.

(** C4, as the code has it.  When the native module reports a status
    other than [AVAILABLE], [checkNeedsUpdate] resolves to a record with
    [shouldUpdate] false, no [storeVersion], the reason
    ["status: <status> means there's no new version available"] and a
    copy of the availability info in [other]; the only effect is the
    native query, so neither comparator (nor the converter) is called. *)
Theorem no_update_unless_available
    (checkOptions : option CheckOptions) (w : world)
    (inAppUpdateInfo : option obj) :
  truthy (curVersionOf checkOptions) = true →
  Native.checkNeedsUpdate SpInAppUpdates = Fulfilled inAppUpdateInfo →
  statusOf inAppUpdateInfo ≠ AVAILABLE UPDATE_STATUS →
  checkNeedsUpdate SpInAppUpdates compareVersions checkOptions w
  = (Returns (Fulfilled
       {| shouldUpdate := false;
          storeVersion := None;
          reason := Some ("status: " +:+ ToString (statusOf inAppUpdateInfo)
                      +:+ " means there's no new version available");
          other := spread inAppUpdateInfo |}),
     World (statusUpdateListeners w) (resultListeners w)
       (trace w ++ [NativeCheckNeedsUpdate]))
  ∧ List.filter isComparison
      (trace (exec (checkNeedsUpdate SpInAppUpdates compareVersions
                      checkOptions) w))
    = List.filter isComparison (trace w).
Proof.
  intros Hcur Hreply Hst. unfold exec.
  rewrite (checkNeedsUpdate_run _ _ Hcur), Hreply.
  rewrite (onAvailabilityInfo_not_available _ _ _ _ _ Hst).
  split; [done |]. simpl. rewrite List.filter_app. simpl.
  by rewrite app_nil_r.
Qed.

(** C7.  With a converter given and the status [AVAILABLE], a falsy
    result of the converter on the native version makes
    [checkNeedsUpdate] reject with the conversion error, whose message
    names the native version; the converter was called, no comparator
    was, and no decision record is produced. *)
Theorem conversion_failure_rejects
    (checkOptions : option CheckOptions) (w : world)
    (inAppUpdateInfo : option obj)
    (convert : value → completion value) (newAppV : value) :
  truthy (curVersionOf checkOptions) = true →
  converterOf checkOptions = Some convert →
  Native.checkNeedsUpdate SpInAppUpdates = Fulfilled inAppUpdateInfo →
  statusOf inAppUpdateInfo = AVAILABLE UPDATE_STATUS →
  convert (versionCodeOf inAppUpdateInfo) = Normal newAppV →
  truthy newAppV = false →
  checkNeedsUpdate SpInAppUpdates compareVersions checkOptions w
  = (Returns (Rejected
       (Tagged "checkNeedsUpdate"
          (Tagged "checkNeedsUpdate"
             (Raw (VString ("Couldnt convert "
                     +:+ ToString (versionCodeOf inAppUpdateInfo)
                     +:+ " using your custom semver converter")))))),
     World (statusUpdateListeners w) (resultListeners w)
       (trace w ++ [NativeCheckNeedsUpdate;
                    ToSemverConverterCall (versionCodeOf inAppUpdateInfo)]))
  ∧ List.filter isComparison
      (trace (exec (checkNeedsUpdate SpInAppUpdates compareVersions
                      checkOptions) w))
    = List.filter isComparison (trace w).
Proof.
  intros Hcur Hconverter Hreply Hst Hconv Hfalsy. unfold exec.
  rewrite (checkNeedsUpdate_run _ _ Hcur), Hreply, Hconverter.
  rewrite (onAvailabilityInfo_unconverted _ _ _ _ _ _ Hst Hconv Hfalsy).
  simpl. rewrite <- app_assoc. split; [done |].
  rewrite List.filter_app. simpl. by rewrite app_nil_r.
Qed.

(** C5, as the code has it.  In the record produced when the status is
    [AVAILABLE] and the comparison is not strictly positive, the reason
    carries the note [" - originated from <nativeVersion>"] if and only
    if a [toSemverConverter] was given. *)
Theorem origin_note_iff_converter_given
    (checkOptions : option CheckOptions) (w : world)
    (inAppUpdateInfo : option obj) (newAppV : value) (n : number) :
  truthy (curVersionOf checkOptions) = true →
  Native.checkNeedsUpdate SpInAppUpdates = Fulfilled inAppUpdateInfo →
  statusOf inAppUpdateInfo = AVAILABLE UPDATE_STATUS →
  match converterOf checkOptions with
  | Some convert =>
      convert (versionCodeOf inAppUpdateInfo) = Normal newAppV
      ∧ truthy newAppV = true
  | None => newAppV = versionCodeOf inAppUpdateInfo
  end →
  default compareVersions (comparatorOf checkOptions)
    newAppV (curVersionOf checkOptions) = Normal n →
  gt0 n = false →
  ∃ r w' note,
    checkNeedsUpdate SpInAppUpdates compareVersions checkOptions w
    = (Returns (Fulfilled r), w')
    ∧ shouldUpdate r = false
    ∧ reason r
      = Some ("current version (" +:+ ToString (curVersionOf checkOptions)
              +:+ ") is already later than the latest store version ("
              +:+ ToString newAppV +:+ note +:+ ")")
    ∧ (note = " - originated from "
              +:+ ToString (versionCodeOf inAppUpdateInfo)
       ↔ is_Some (converterOf checkOptions))
    ∧ (note = "" ↔ converterOf checkOptions = None).
Proof.
  intros Hcur Hreply Hst Hconv Hcmp Hgt.
  rewrite (checkNeedsUpdate_run _ _ Hcur), Hreply.
  rewrite (onAvailabilityInfo_compared _ _ _ _ _ _ _ Hst Hconv Hcmp), Hgt.
  do 2 eexists.
  exists (match converterOf checkOptions with
          | Some _ =>
              " - originated from "
              +:+ ToString (versionCodeOf inAppUpdateInfo)
          | None => ""
          end).
  split; [reflexivity |]. split; [done |]. split; [done |].
  destruct (converterOf checkOptions) as [convert |].
  - split; [by split; eauto | by split].
  - split; [| done]. split; [discriminate | by intros [? [=]]].
Qed.

(** *** The status-listener registry and the stream toggle *)

Lemma hasListeners_add cb (r : gset callback) :
  Listeners.hasListeners (Listeners.addListener cb r) = true.
Proof.
  unfold Listeners.hasListeners, Listeners.addListener.
  apply bool_decide_eq_true. set_solver.
Qed.

Lemma addStatusUpdateListener_run cb w :
  addStatusUpdateListener cb w
  = (Returns tt,
     World ({[cb]} ∪ statusUpdateListeners w) (resultListeners w)
       (trace w ++ [NativeSetStatusUpdateSubscription true])).
Proof.
  unfold addStatusUpdateListener. run_M.
  by rewrite hasListeners_add.
Qed.

Lemma removeStatusUpdateListener_run cb w :
  removeStatusUpdateListener cb w
  = (Returns tt,
     World (statusUpdateListeners w ∖ {[cb]}) (resultListeners w)
       (trace w ++
        if bool_decide (statusUpdateListeners w ∖ {[cb]} = ∅)
        then [NativeSetStatusUpdateSubscription false] else [])).
Proof.
  unfold removeStatusUpdateListener. run_M.
  unfold Listeners.hasListeners, Listeners.removeListener.
  destruct w as [st rs t]; simpl.
  destruct (decide (st ∖ {[cb]} = ∅)) as [He | Hne].
  - rewrite (bool_decide_eq_false_2 _ (λ H, H He)).
    by rewrite (bool_decide_eq_true_2 _ He).
  - rewrite (bool_decide_eq_true_2 _ Hne).
    rewrite (bool_decide_eq_false_2 _ Hne).
    simpl. by rewrite app_nil_r.
Qed.

Lemma step_returns op w :
  step op w = (Returns tt, exec (step op) w).
Proof.
  destruct op as [cb | cb]; unfold exec; simpl.
  - by rewrite addStatusUpdateListener_run.
  - by rewrite removeStatusUpdateListener_run.
Qed.

Lemma steps_cons op ops w :
  exec (steps (op :: ops)) w
  = exec (steps ops) (exec (step op) w).
Proof.
  unfold exec at 1. simpl. unfold mbind, M_bind.
  by rewrite step_returns.
Qed.

(** C10.  The two status-listener methods look at the registry as it
    is after the change: a [removeStatusUpdateListener] that leaves the
    registry empty calls [setStatusUpdateSubscription(false)], whatever
    the registry held before (also nothing), and an
    [addStatusUpdateListener] that leaves it non-empty, as every one
    does, calls [setStatusUpdateSubscription(true)]. *)
Theorem subscription_follows_resulting_registry (cb : callback) (w : world) :
  (statusUpdateListeners (exec (removeStatusUpdateListener cb) w) = ∅ →
   trace (exec (removeStatusUpdateListener cb) w)
   = trace w ++ [NativeSetStatusUpdateSubscription false])
  ∧ (statusUpdateListeners (exec (addStatusUpdateListener cb) w) ≠ ∅ →
     trace (exec (addStatusUpdateListener cb) w)
     = trace w ++ [NativeSetStatusUpdateSubscription true])
  ∧ statusUpdateListeners (exec (addStatusUpdateListener cb) w) ≠ ∅.
Proof.
  unfold exec.
  rewrite removeStatusUpdateListener_run, addStatusUpdateListener_run.
  simpl. split_and!.
  - intros He. by rewrite (bool_decide_eq_true_2 _ He).
  - done.
  - set_solver.
Qed.

(** C2, as the code has it.  Adding the first status listener makes
    exactly one call, [setStatusUpdateSubscription(true)]; removing the
    last one makes exactly one call, [setStatusUpdateSubscription(false)];
    and a sequence of additions and removals during which a listener is
    always registered makes no [setStatusUpdateSubscription(false)] call
    and one [setStatusUpdateSubscription(true)] call per addition. *)
Theorem subscription_toggle
    (cb : callback) (ops : list listenerOp) (w : world) :
  (statusUpdateListeners w = ∅ →
   exec (addStatusUpdateListener cb) w
   = World {[cb]} (resultListeners w)
       (trace w ++ [NativeSetStatusUpdateSubscription true]))
  ∧ (statusUpdateListeners w = {[cb]} →
     exec (removeStatusUpdateListener cb) w
     = World ∅ (resultListeners w)
         (trace w ++ [NativeSetStatusUpdateSubscription false]))
  ∧ (alwaysListening ops w →
     trace (exec (steps ops) w)
     = trace w ++
       map (λ _, NativeSetStatusUpdateSubscription true) (List.filter isAdd ops)).
Proof.
  split_and!.
  - intros He. unfold exec. rewrite addStatusUpdateListener_run. simpl.
    rewrite He. by rewrite (right_id_L ∅ (∪)).
  - intros Hs. unfold exec. rewrite removeStatusUpdateListener_run. simpl.
    rewrite Hs.
    rewrite difference_diag_L. by rewrite bool_decide_eq_true_2.
  - revert w. induction ops as [| op ops IH]; intros w Hal.
    + simpl. by rewrite app_nil_r.
    + destruct Hal as [_ Hal]. rewrite steps_cons. rewrite (IH _ Hal).
      assert (statusUpdateListeners (exec (step op) w) ≠ ∅) as Hne
        by (by destruct ops; destruct Hal).
      destruct op as [cb' | cb']; unfold exec in Hne |- *;
        simpl step in Hne |- *.
      * rewrite addStatusUpdateListener_run. simpl.
        by rewrite <- app_assoc.
      * rewrite removeStatusUpdateListener_run in Hne |- *.
        simpl in Hne |- *.
        rewrite (bool_decide_eq_false_2 _ Hne).
        by rewrite app_nil_r.
Qed.

(** *** Event distribution *)

Lemma elem_of_deliveries (r : gset callback) (event : obj) cb ev :
  ListenerCall cb ev ∈ map (λ cb, ListenerCall cb event) (elements r)
  ↔ cb ∈ r ∧ ev = event.
Proof.
  change (map (λ cb, ListenerCall cb event) (elements r))
    with ((λ cb, ListenerCall cb event) <$> elements r).
  rewrite list_elem_of_fmap. split.
  - intros (cb' & [= -> ->] & Hin). by apply elem_of_elements in Hin.
  - intros [Hin ->]. exists cb. by rewrite elem_of_elements.
Qed.

Lemma NoDup_deliveries (r : gset callback) (event : obj) :
  NoDup (map (λ cb, ListenerCall cb event) (elements r)).
Proof.
  change (map (λ cb, ListenerCall cb event) (elements r))
    with ((λ cb, ListenerCall cb event) <$> elements r).
  apply NoDup_fmap_2; [by intros ?? [=] | apply NoDup_elements].
Qed.

(** C9.  An incoming result event is handed, as it is, to every
    registered result listener, once each: nothing is recorded but one
    call per registered callback, with the raw payload itself, so no
    field of it (a byte count included) is changed. *)
Theorem result_event_delivered_verbatim (event : obj) (w : world) :
  onIncomingNativeResult event w
  = (Returns tt,
     World (statusUpdateListeners w) (resultListeners w)
       (trace w
        ++ map (λ cb, ListenerCall cb event) (elements (resultListeners w))))
  ∧ (∀ cb ev,
       ListenerCall cb ev
         ∈ map (λ cb, ListenerCall cb event) (elements (resultListeners w))
       ↔ cb ∈ resultListeners w ∧ ev = event)
  ∧ NoDup (map (λ cb, ListenerCall cb event) (elements (resultListeners w))).
Proof.
  split_and!.
  - unfold onIncomingNativeResult. by run_M.
  - intros cb ev. apply elem_of_deliveries.
  - apply NoDup_deliveries.
Qed.

End Properties.

(** C3, on a fresh instance called without options. *)
Lemma checkNeedsUpdate_without_curVersion_witness :
  checkNeedsUpdate (playCore (Fulfilled None)) Utils.compareVersions None fresh
  = (Throws (Tagged "checkNeedsUpdate"
               (Raw (VString "You have to include at least the curVersion to the options passed in checkNeedsUpdate"))),
     fresh)
  ∧ List.filter isNativeCall
      (trace (exec (checkNeedsUpdate (playCore (Fulfilled None))
                      Utils.compareVersions None) fresh))
    = List.filter isNativeCall (trace fresh).
Proof.
  apply (checkNeedsUpdate_without_curVersion
           (playCore (Fulfilled None)) Utils.compareVersions None fresh).
  reflexivity.
Defined.

(** C8, for a call without options and for an immediate update. *)
Lemma startUpdate_checks_updateType_witness :
  startUpdate (playCore (Fulfilled None)) None fresh
  = (Throws (Tagged "startUpdate"
               (Raw (VString
                  ("updateType should be one of: "
                   +:+ ToString (VNumber (Int 0)) +:+ " or "
                   +:+ ToString (VNumber (Int 1)) +:+ ", "
                   +:+ ToString VUndefined +:+ " was passed.")))),
     fresh)
  ∧ startUpdate (playCore (Fulfilled None))
      (Some {| updateType := VNumber (Int 1) |}) fresh
    = (Returns (Fulfilled VUndefined),
       World ∅ ∅ [NativeStartUpdate (VNumber (Int 1))]).
Proof.
  split.
  - apply (startUpdate_checks_updateType (playCore (Fulfilled None)) None fresh);
      discriminate.
  - apply (startUpdate_checks_updateType (playCore (Fulfilled None))
             (Some {| updateType := VNumber (Int 1) |}) fresh).
    left. reflexivity.
Defined.

(** C10, on a fresh instance: removing a callback that was never
    registered still switches the stream off. *)
Lemma subscription_follows_resulting_registry_witness :
  trace (exec (removeStatusUpdateListener 7) fresh)
  = [NativeSetStatusUpdateSubscription false]
  ∧ trace (exec (addStatusUpdateListener 7)
             (exec (addStatusUpdateListener 7) fresh))
    = [NativeSetStatusUpdateSubscription true;
       NativeSetStatusUpdateSubscription true].
Proof.
  split.
  - apply (subscription_follows_resulting_registry 7 fresh).
    reflexivity.
  - apply (subscription_follows_resulting_registry 7
             (exec (addStatusUpdateListener 7) fresh)).
    apply (subscription_follows_resulting_registry 7
             (exec (addStatusUpdateListener 7) fresh)).
Defined.

(** C2 as stated fails: with listener 1 registered throughout, adding
    and removing listener 2 calls [setStatusUpdateSubscription(true)]
    once more. *)
Lemma churn_calls_subscription_again :
  alwaysListening
    [AddStatus 2; RemoveStatus 2] (exec (addStatusUpdateListener 1) fresh)
  ∧ subscriptionCalls (trace (exec (addStatusUpdateListener 1) fresh)) = [true]
  ∧ subscriptionCalls
      (trace (exec (steps
                      [AddStatus 2; RemoveStatus 2])
                (exec (addStatusUpdateListener 1) fresh)))
    = [true; true].
Proof.
  split_and!; [| reflexivity | reflexivity].
  simpl. split_and!; try done; compute_done.
Qed.

(** C2 as amended, on a fresh instance. *)
Lemma subscription_toggle_witness :
  exec (addStatusUpdateListener 1) fresh
  = World {[1%nat]} ∅ [NativeSetStatusUpdateSubscription true]
  ∧ exec (removeStatusUpdateListener 1) (World {[1%nat]} ∅ [])
    = World ∅ ∅ [NativeSetStatusUpdateSubscription false]
  ∧ trace (exec (steps
                   [AddStatus 2; RemoveStatus 1; AddStatus 2])
             (World {[1%nat]} ∅ []))
    = [NativeSetStatusUpdateSubscription true;
       NativeSetStatusUpdateSubscription true].
Proof.
  split_and!.
  - apply (subscription_toggle 1 [] fresh).
    reflexivity.
  - apply (subscription_toggle 1 []
             (World {[1%nat]} ∅ [])).
    reflexivity.
  - apply (subscription_toggle 1
             [AddStatus 2; RemoveStatus 1; AddStatus 2]
             (World {[1%nat]} ∅ [])).
    simpl. split_and!; try done; compute_done.
Defined.

(** C1, for a store at 2.0.0 and an app at 1.0.0. *)
Lemma decision_record_invariant_witness :
  (true = true →
   ∃ inAppUpdateInfo newAppV z,
     Fulfilled (Some (availabilityInfo (VNumber (Int 2)) (VString "2.0.0")))
     = Fulfilled inAppUpdateInfo
     ∧ get (default ∅ inAppUpdateInfo) "updateAvailability" = VNumber (Int 2)
     ∧ newAppV = get (default ∅ inAppUpdateInfo) "versionCode"
     ∧ Utils.compareVersions newAppV (VString "1.0.0") = Normal (Int z)
     ∧ 0 < z)
  ∧ (is_Some (@None string) ↔ true = false).
Proof.
  apply (decision_record_invariant
           (storeReports (VNumber (Int 2)) (VString "2.0.0"))
           Utils.compareVersions
           (optionsWith (VString "1.0.0") None)
           fresh
           (World ∅ ∅ [NativeCheckNeedsUpdate;
                       CompareVersionsCall (VString "2.0.0") (VString "1.0.0")])
           {| shouldUpdate := true;
              storeVersion := Some (VString "2.0.0");
              reason := None;
              other := availabilityInfo (VNumber (Int 2)) (VString "2.0.0") |}).
  vm_compute. reflexivity.
Defined.

(** C4 as stated fails: the reason starts with ["status: "]. *)
Lemma unavailable_reason_starts_with_status :
  checkNeedsUpdate (storeReports (VNumber (Int 1)) (VNumber (Int 42)))
    Utils.compareVersions (optionsWith (VString "1.0.0") None) fresh
  = (Returns (Fulfilled
       {| shouldUpdate := false;
          storeVersion := None;
          reason := Some "status: 1 means there's no new version available";
          other := availabilityInfo (VNumber (Int 1)) (VNumber (Int 42)) |}),
     World ∅ ∅ [NativeCheckNeedsUpdate])
  ∧ "status: 1 means there's no new version available"
    ≠ ToString (VNumber (Int 1)) +:+ " means there's no new version available".
Proof.
  split; [vm_compute; reflexivity | discriminate].
Qed.

(** C4 as amended, for a store that reports no update. *)
Lemma no_update_unless_available_witness :
  checkNeedsUpdate (storeReports (VNumber (Int 1)) (VNumber (Int 42)))
    Utils.compareVersions (optionsWith (VString "1.0.0") None) fresh
  = (Returns (Fulfilled
       {| shouldUpdate := false;
          storeVersion := None;
          reason := Some ("status: " +:+ ToString (VNumber (Int 1))
                      +:+ " means there's no new version available");
          other := spread
                     (Some (availabilityInfo (VNumber (Int 1))
                              (VNumber (Int 42)))) |}),
     World ∅ ∅ ([] ++ [NativeCheckNeedsUpdate]))
  ∧ List.filter isComparison
      (trace (exec (checkNeedsUpdate
                      (storeReports (VNumber (Int 1)) (VNumber (Int 42)))
                      Utils.compareVersions
                      (optionsWith (VString "1.0.0") None)) fresh))
    = List.filter isComparison [].
Proof.
  apply (no_update_unless_available
           (storeReports (VNumber (Int 1)) (VNumber (Int 42)))
           Utils.compareVersions (optionsWith (VString "1.0.0") None) fresh
           (Some (availabilityInfo (VNumber (Int 1)) (VNumber (Int 42))))).
  - reflexivity.
  - reflexivity.
  - vm_compute. discriminate.
Defined.

(** C5 as stated fails: with a converter that returns the native
    version unchanged, the note is there all the same. *)
Lemma origin_note_for_unchanged_version :
  checkNeedsUpdate (storeReports (VNumber (Int 2)) (VString "1.0.0"))
    Utils.compareVersions
    (optionsWith (VString "1.0.0") (Some sameVersion)) fresh
  = (Returns (Fulfilled
       {| shouldUpdate := false;
          storeVersion := Some (VString "1.0.0");
          reason := Some "current version (1.0.0) is already later than the latest store version (1.0.0 - originated from 1.0.0)";
          other := availabilityInfo (VNumber (Int 2)) (VString "1.0.0") |}),
     World ∅ ∅ [NativeCheckNeedsUpdate;
                ToSemverConverterCall (VString "1.0.0");
                CompareVersionsCall (VString "1.0.0") (VString "1.0.0")])
  ∧ sameVersion (VString "1.0.0") = Normal (VString "1.0.0").
Proof.
  split; [vm_compute; reflexivity | reflexivity].
Qed.

(** C5 as amended, without a converter: no note. *)
Lemma origin_note_iff_converter_given_witness :
  ∃ r w' note,
    checkNeedsUpdate (storeReports (VNumber (Int 2)) (VString "1.0.0"))
      Utils.compareVersions (optionsWith (VString "1.0.0") None) fresh
    = (Returns (Fulfilled r), w')
    ∧ shouldUpdate r = false
    ∧ reason r
      = Some ("current version (" +:+ ToString (VString "1.0.0")
              +:+ ") is already later than the latest store version ("
              +:+ ToString (VString "1.0.0") +:+ note +:+ ")")
    ∧ (note = " - originated from "
              +:+ ToString
                    (get (default ∅
                            (Some (availabilityInfo (VNumber (Int 2))
                                     (VString "1.0.0"))))
                       "versionCode")
       ↔ is_Some (@None (value → completion value)))
    ∧ (note = "" ↔ @None (value → completion value) = None).
Proof.
  apply (origin_note_iff_converter_given
           (storeReports (VNumber (Int 2)) (VString "1.0.0"))
           Utils.compareVersions (optionsWith (VString "1.0.0") None) fresh
           (Some (availabilityInfo (VNumber (Int 2)) (VString "1.0.0")))
           (VString "1.0.0") (Int 0)).
  - reflexivity.
  - reflexivity.
  - reflexivity.
  - reflexivity.
  - reflexivity.
  - reflexivity.
Defined.

(** C7, for a converter that returns the empty string on version code
    42. *)
Lemma conversion_failure_rejects_witness :
  checkNeedsUpdate (storeReports (VNumber (Int 2)) (VNumber (Int 42)))
    Utils.compareVersions
    (optionsWith (VString "1.0.0") (Some noVersion)) fresh
  = (Returns (Rejected
       (Tagged "checkNeedsUpdate"
          (Tagged "checkNeedsUpdate"
             (Raw (VString ("Couldnt convert "
                     +:+ ToString
                           (get (default ∅
                                   (Some (availabilityInfo (VNumber (Int 2))
                                            (VNumber (Int 42)))))
                              "versionCode")
                     +:+ " using your custom semver converter")))))),
     World ∅ ∅
       ([] ++ [NativeCheckNeedsUpdate;
               ToSemverConverterCall
                 (get (default ∅
                         (Some (availabilityInfo (VNumber (Int 2))
                                  (VNumber (Int 42)))))
                    "versionCode")]))
  ∧ List.filter isComparison
      (trace (exec (checkNeedsUpdate
                      (storeReports (VNumber (Int 2)) (VNumber (Int 42)))
                      Utils.compareVersions
                      (optionsWith (VString "1.0.0") (Some noVersion))) fresh))
    = List.filter isComparison [].
Proof.
  apply (conversion_failure_rejects
           (storeReports (VNumber (Int 2)) (VNumber (Int 42)))
           Utils.compareVersions
           (optionsWith (VString "1.0.0") (Some noVersion)) fresh
           (Some (availabilityInfo (VNumber (Int 2)) (VNumber (Int 42))))
           noVersion (VString "")).
  - reflexivity.
  - reflexivity.
  - reflexivity.
  - reflexivity.
  - reflexivity.
  - reflexivity.
Defined.

(** The events of the spec's examples. *)
Example status_event_bytes_become_numbers :
  trace (exec (onIncomingNativeStatusUpdate
                 (<["status" := VNumber (Int 2)]>
                    (<["bytesDownloaded" := VString "1024"]>
                       (<["totalBytesToDownload" := VString "2048"]> ∅))))
           (World {[5%nat]} ∅ []))
  = [ListenerCall 5
       (<["status" := VNumber (Int 2)]>
          (<["bytesDownloaded" := VNumber (Int 1024)]>
             (<["totalBytesToDownload" := VNumber (Int 2048)]> ∅)))].
Proof. vm_compute. reflexivity. Qed.

Example status_event_bad_bytes_still_delivered :
  trace (exec (onIncomingNativeStatusUpdate
                 (<["bytesDownloaded" := VString "n/a"]> ∅))
           (World {[5%nat]} ∅ []))
  = [ListenerCall 5
       (<["bytesDownloaded" := VNumber NaN]>
          (<["totalBytesToDownload" := VNumber NaN]> ∅))].
Proof. vm_compute. reflexivity. Qed.

Example result_event_bytes_untouched :
  trace (exec (onIncomingNativeResult
                 (<["bytesDownloaded" := VString "1024"]> ∅))
           (World ∅ {[5%nat; 6%nat]} []))
  = [ListenerCall 6 (<["bytesDownloaded" := VString "1024"]> ∅);
     ListenerCall 5 (<["bytesDownloaded" := VString "1024"]> ∅)].
Proof. vm_compute. reflexivity. Qed.

(** The decisions of the spec's examples. *)
Example store_newer_should_update :
  checkNeedsUpdate (storeReports (VNumber (Int 2)) (VString "2.0.0"))
    Utils.compareVersions (optionsWith (VString "1.0.0") None) fresh
  = (Returns (Fulfilled
       {| shouldUpdate := true;
          storeVersion := Some (VString "2.0.0");
          reason := None;
          other := availabilityInfo (VNumber (Int 2)) (VString "2.0.0") |}),
     World ∅ ∅ [NativeCheckNeedsUpdate;
                CompareVersionsCall (VString "2.0.0") (VString "1.0.0")]).
Proof. vm_compute. reflexivity. Qed.

Example store_equal_should_not_update :
  checkNeedsUpdate (storeReports (VNumber (Int 2)) (VString "1.0.0"))
    Utils.compareVersions (optionsWith (VString "1.0.0") None) fresh
  = (Returns (Fulfilled
       {| shouldUpdate := false;
          storeVersion := Some (VString "1.0.0");
          reason := Some "current version (1.0.0) is already later than the latest store version (1.0.0)";
          other := availabilityInfo (VNumber (Int 2)) (VString "1.0.0") |}),
     World ∅ ∅ [NativeCheckNeedsUpdate;
                CompareVersionsCall (VString "1.0.0") (VString "1.0.0")]).
Proof. vm_compute. reflexivity. Qed.

Example empty_curVersion_is_missing :
  checkNeedsUpdate (storeReports (VNumber (Int 2)) (VString "2.0.0"))
    Utils.compareVersions (optionsWith (VString "") None) fresh
  = (Throws (Tagged "checkNeedsUpdate"
               (Raw (VString "You have to include at least the curVersion to the options passed in checkNeedsUpdate"))),
     fresh).
Proof. reflexivity. Qed.

Example startUpdate_without_options :
  startUpdate (playCore (Fulfilled None)) None fresh
  = (Throws (Tagged "startUpdate"
               (Raw (VString "updateType should be one of: 0 or 1, undefined was passed."))),
     fresh).
Proof. reflexivity. Qed.

(** * Further properties of the class *)

(** ** Effects of a computation *)

Lemma world_eta w :
  World (statusUpdateListeners w) (resultListeners w) (trace w) = w.
Proof. by destruct w. Qed.

Lemma only_ret {A} P (a : A) : only P (mret a).
Proof.
  intros w. exists []. split; [| constructor].
  unfold mret, M_ret. simpl. by rewrite app_nil_r, world_eta.
Qed.

Lemma only_throw {A} P e : only P (throw (A:=A) e).
Proof.
  intros w. exists []. split; [| constructor].
  unfold throw. simpl. by rewrite app_nil_r, world_eta.
Qed.

Lemma only_throwError {A} P err scope : only P (throwError (A:=A) err scope).
Proof. apply only_throw. Qed.

Lemma only_log (P : effect → bool) e : P e = true → only P (log e).
Proof.
  intros HP w. exists [e]. split; [done |]. by repeat constructor.
Qed.

Lemma only_bind {A B} P (m : M A) (f : A → M B) :
  only P m → (∀ a, only P (f a)) → only P (m ≫= f).
Proof.
  intros Hm Hf w. destruct (Hm w) as (t & Hw & Ht).
  unfold mbind, M_bind. destruct (m w) as [[a | e] w1]; simpl in Hw; subst w1.
  - destruct (Hf a (World (statusUpdateListeners w) (resultListeners w)
                      (trace w ++ t))) as (t' & -> & Ht').
    simpl. exists (t ++ t'). rewrite app_assoc. split; [done |].
    by apply Forall_app.
  - by exists t.
Qed.

Lemma only_run {A} P (c : completion A) : only P (run c).
Proof. destruct c; [apply only_ret | apply only_throw]. Qed.

Lemma only_then {A B} P (p : promise A) (f : A → M B) :
  (∀ a, only P (f a)) → only P (then_ p f).
Proof.
  intros Hf w. unfold then_. destruct p as [a | e].
  - destruct (Hf a w) as (t & Hw & Ht).
    destruct (f a w) as [[b | e] w1]; simpl in Hw |- *; by exists t.
  - exists []. split; [| constructor].
    simpl. by rewrite app_nil_r, world_eta.
Qed.

Lemma only_catch {A} P (p : promise A) (f : exn → M A) :
  (∀ e, only P (f e)) → only P (catch_ p f).
Proof.
  intros Hf w. unfold catch_. destruct p as [a | e].
  - exists []. split; [| constructor].
    simpl. by rewrite app_nil_r, world_eta.
  - destruct (Hf e w) as (t & Hw & Ht).
    destruct (f e w) as [[b | e'] w1]; simpl in Hw |- *; by exists t.
Qed.

(** Breaks a method into its steps. *)
Ltac only_steps :=
  repeat first
    [ apply only_ret
    | apply only_throwError
    | apply only_run
    | apply only_log; reflexivity
    | apply only_bind; [| intros ?]
    | apply only_then; intros ?
    | apply only_catch; intros ?
    | case_match ].

Lemma only_weaken {A} (P Q : effect → bool) (m : M A) :
  (∀ e, P e = true → Q e = true) → only P m → only Q m.
Proof.
  intros HPQ Hm w. destruct (Hm w) as (t & Hw & Ht).
  exists t. split; [done |]. eapply Forall_impl; [exact Ht | done].
Qed.

Lemma filter_none (P Q : effect → bool) (t : list effect) :
  (∀ e, P e = true → Q e = false) →
  Forall (λ e, P e = true) t → List.filter Q t = [].
Proof.
  intros HPQ. induction 1 as [| e t He _ IH]; [done |].
  simpl. by rewrite (HPQ e He).
Qed.

Lemma only_onAvailabilityInfo S compareVersions cur conv cmp info :
  only isCallerFunction
    (onAvailabilityInfo S compareVersions cur conv cmp info).
Proof. unfold onAvailabilityInfo. only_steps. Qed.

Lemma only_checkNeedsUpdate S compareVersions checkOptions :
  only isCheckEffect (checkNeedsUpdate S compareVersions checkOptions).
Proof.
  unfold checkNeedsUpdate, SpInAppUpdates_checkNeedsUpdate. only_steps.
  eapply only_weaken; [| apply only_onAvailabilityInfo].
  by intros [].
Qed.

(** Past the check of [curVersion]: the native query, then calls of the
    caller's functions only. *)
Lemma checkNeedsUpdate_trace S compareVersions checkOptions w :
  truthy (from_option curVersion VUndefined checkOptions) = true →
  ∃ t,
    exec (checkNeedsUpdate S compareVersions checkOptions) w
    = World (statusUpdateListeners w) (resultListeners w)
        (trace w ++ NativeCheckNeedsUpdate :: t)
    ∧ Forall (λ e, isCallerFunction e = true) t.
Proof.
  intros Hcur. unfold exec. rewrite (checkNeedsUpdate_run _ _ _ _ Hcur).
  destruct (Native.checkNeedsUpdate S) as [info | e].
  - destruct (only_onAvailabilityInfo S compareVersions
                (from_option curVersion VUndefined checkOptions)
                (checkOptions ≫= toSemverConverter)
                (checkOptions ≫= customVersionComparator) info
                (World (statusUpdateListeners w) (resultListeners w)
                   (trace w ++ [NativeCheckNeedsUpdate])))
      as (t & Hw & Ht).
    exists t. split; [| done]. simpl in Hw.
    destruct (onAvailabilityInfo _ _ _ _ _ _ _) as [[r | e] w1];
      simpl in Hw |- *; subst w1; by rewrite <- app_assoc.
  - exists []. by split.
Qed.

Lemma only_startUpdate S updateOptions :
  only isStartUpdateCall (startUpdate S updateOptions).
Proof. unfold startUpdate, SpInAppUpdates_startUpdate. only_steps. Qed.

(** ** More on the update decision *)

Section Decision.

Context (SpInAppUpdates : Native.t).
Context (compareVersions : value → value → completion number).

Local Abbreviation UPDATE_STATUS := (UPDATE_STATUS SpInAppUpdates).
Local Abbreviation curVersionOf o := (from_option curVersion VUndefined o).
Local Abbreviation converterOf o := (o ≫= toSemverConverter).
Local Abbreviation comparatorOf o := (o ≫= customVersionComparator).
Local Abbreviation statusOf i := (get (default ∅ i) "updateAvailability").
Local Abbreviation versionCodeOf i := (get (default ∅ i) "versionCode").

(** What a fulfilled promise of [checkNeedsUpdate] tells about the call. *)
Lemma checkNeedsUpdate_fulfilled_inv checkOptions w w' r :
  checkNeedsUpdate SpInAppUpdates compareVersions checkOptions w
  = (Returns (Fulfilled r), w') →
  ∃ info,
    Native.checkNeedsUpdate SpInAppUpdates = Fulfilled info
    ∧ onAvailabilityInfo SpInAppUpdates compareVersions
        (curVersionOf checkOptions) (converterOf checkOptions)
        (comparatorOf checkOptions) info
        (World (statusUpdateListeners w) (resultListeners w)
           (trace w ++ [NativeCheckNeedsUpdate]))
      = (Returns r, w').
Proof.
  intros Hrun.
  destruct (truthy (curVersionOf checkOptions)) eqn:Hcur;
    [| by rewrite (checkNeedsUpdate_falsy_run _ _ _ _ Hcur) in Hrun].
  rewrite (checkNeedsUpdate_run _ _ _ _ Hcur) in Hrun.
  destruct (Native.checkNeedsUpdate SpInAppUpdates) as [info | e]; [| done].
  exists info. split; [done |].
  destruct (onAvailabilityInfo _ _ _ _ _ _ _) as [[r1 | e] w1]; [| done].
  by injection Hrun as -> ->.
Qed.

(** The records the handler can return. *)
Lemma onAvailabilityInfo_returns_inv cur conv cmp info w w' r :
  onAvailabilityInfo SpInAppUpdates compareVersions cur conv cmp info w
  = (Returns r, w') →
  (statusOf info ≠ AVAILABLE UPDATE_STATUS
   ∧ storeVersion r = None ∧ other r = spread info)
  ∨ (statusOf info = AVAILABLE UPDATE_STATUS
     ∧ is_Some (storeVersion r) ∧ other r = spread info).
Proof.
  unfold onAvailabilityInfo.
  destruct (strict_equal (statusOf info) (AVAILABLE UPDATE_STATUS)) eqn:Hst.
  - apply strict_equal_constant in Hst. intros Hrun. right.
    split; [done |]. revert Hrun. run_M.
    repeat (case_match; simplify_eq/=; try done); intros; simplify_eq/=; eauto.
  - apply strict_equal_constant_false in Hst. run_M.
    intros [= <- _]. left. by simpl.
Qed.

(** X1.  When the native query rejects, [checkNeedsUpdate] rejects with
    the same reason tagged with the operation; the query is the only
    thing that happened (no converter, no comparator). *)
Theorem provider_rejection_is_tagged
    (checkOptions : option CheckOptions) (w : world) (e : exn) :
  truthy (curVersionOf checkOptions) = true →
  Native.checkNeedsUpdate SpInAppUpdates = Rejected e →
  checkNeedsUpdate SpInAppUpdates compareVersions checkOptions w
  = (Returns (Rejected (Tagged "checkNeedsUpdate" e)),
     World (statusUpdateListeners w) (resultListeners w)
       (trace w ++ [NativeCheckNeedsUpdate])).
Proof.
  intros Hcur Hreply.
  by rewrite (checkNeedsUpdate_run _ _ _ _ Hcur), Hreply.
Qed.

(** X2.  With the status [AVAILABLE], a usable remote version and a
    comparison that returns [n], [checkNeedsUpdate] resolves to a record
    whose [shouldUpdate] is true exactly when [n] is a number above zero
    ([NaN] is not), whose [storeVersion] is the remote version as
    compared (converted if a converter is given) and whose [other] is the
    availability info; the native query, the converter (if given) and
    one comparator are called, in that order. *)
Theorem decision_follows_comparison
    (checkOptions : option CheckOptions) (w : world)
    (inAppUpdateInfo : option obj) (newAppV : value) (n : number) :
  truthy (curVersionOf checkOptions) = true →
  Native.checkNeedsUpdate SpInAppUpdates = Fulfilled inAppUpdateInfo →
  statusOf inAppUpdateInfo = AVAILABLE UPDATE_STATUS →
  match converterOf checkOptions with
  | Some convert =>
      convert (versionCodeOf inAppUpdateInfo) = Normal newAppV
      ∧ truthy newAppV = true
  | None => newAppV = versionCodeOf inAppUpdateInfo
  end →
  default compareVersions (comparatorOf checkOptions)
    newAppV (curVersionOf checkOptions) = Normal n →
  ∃ r,
    checkNeedsUpdate SpInAppUpdates compareVersions checkOptions w
    = (Returns (Fulfilled r),
       World (statusUpdateListeners w) (resultListeners w)
         (trace w
          ++ [NativeCheckNeedsUpdate]
          ++ match converterOf checkOptions with
             | Some _ => [ToSemverConverterCall (versionCodeOf inAppUpdateInfo)]
             | None => []
             end
          ++ [match comparatorOf checkOptions with
              | Some _ =>
                  CustomVersionComparatorCall newAppV
                    (curVersionOf checkOptions)
              | None =>
                  CompareVersionsCall newAppV (curVersionOf checkOptions)
              end]))
    ∧ (shouldUpdate r = true ↔ ∃ z, n = Int z ∧ 0 < z)
    ∧ storeVersion r = Some newAppV
    ∧ other r = spread inAppUpdateInfo.
Proof.
  intros Hcur Hreply Hst Hconv Hcmp.
  rewrite (checkNeedsUpdate_run _ _ _ _ Hcur), Hreply.
  rewrite (onAvailabilityInfo_compared _ _ _ _ _ _ _ _ _ Hst Hconv Hcmp).
  simpl. rewrite <- app_assoc. eexists. split; [reflexivity |].
  rewrite <- gt0_positive. by destruct (gt0 n).
Qed.

(** X3.  When the converter throws, [checkNeedsUpdate] rejects with the
    thrown value tagged with the operation, and no comparator is
    called. *)
Theorem converter_exception_rejects
    (checkOptions : option CheckOptions) (w : world)
    (inAppUpdateInfo : option obj)
    (convert : value → completion value) (v : value) :
  truthy (curVersionOf checkOptions) = true →
  converterOf checkOptions = Some convert →
  Native.checkNeedsUpdate SpInAppUpdates = Fulfilled inAppUpdateInfo →
  statusOf inAppUpdateInfo = AVAILABLE UPDATE_STATUS →
  convert (versionCodeOf inAppUpdateInfo) = Abrupt v →
  checkNeedsUpdate SpInAppUpdates compareVersions checkOptions w
  = (Returns (Rejected (Tagged "checkNeedsUpdate" (Raw v))),
     World (statusUpdateListeners w) (resultListeners w)
       (trace w ++ [NativeCheckNeedsUpdate;
                    ToSemverConverterCall (versionCodeOf inAppUpdateInfo)])).
Proof.
  intros Hcur Hconverter Hreply Hst Hconv.
  rewrite (checkNeedsUpdate_run _ _ _ _ Hcur), Hreply, Hconverter.
  rewrite (onAvailabilityInfo_conversion_throws _ _ _ _ _ _ _ _ Hst Hconv).
  simpl. by rewrite <- app_assoc.
Qed.

(** X4.  When the comparator in use throws, [checkNeedsUpdate] rejects
    with the thrown value tagged with the operation: no decision record
    is made up for a comparison that failed. *)
Theorem comparator_exception_rejects
    (checkOptions : option CheckOptions) (w : world)
    (inAppUpdateInfo : option obj) (newAppV v : value) :
  truthy (curVersionOf checkOptions) = true →
  Native.checkNeedsUpdate SpInAppUpdates = Fulfilled inAppUpdateInfo →
  statusOf inAppUpdateInfo = AVAILABLE UPDATE_STATUS →
  match converterOf checkOptions with
  | Some convert =>
      convert (versionCodeOf inAppUpdateInfo) = Normal newAppV
      ∧ truthy newAppV = true
  | None => newAppV = versionCodeOf inAppUpdateInfo
  end →
  default compareVersions (comparatorOf checkOptions)
    newAppV (curVersionOf checkOptions) = Abrupt v →
  ∃ w',
    checkNeedsUpdate SpInAppUpdates compareVersions checkOptions w
    = (Returns (Rejected (Tagged "checkNeedsUpdate" (Raw v))), w').
Proof.
  intros Hcur Hreply Hst Hconv Hcmp.
  rewrite (checkNeedsUpdate_run _ _ _ _ Hcur), Hreply.
  destruct (onAvailabilityInfo_comparison_throws SpInAppUpdates
              compareVersions (curVersionOf checkOptions) _ _ _
              (World (statusUpdateListeners w) (resultListeners w)
                 (trace w ++ [NativeCheckNeedsUpdate]))
              _ _ Hst Hconv Hcmp) as [w1 ->].
  eauto.
Qed.

(** X5.  A custom comparator replaces the default one altogether: with
    [customVersionComparator] given, the outcome and the trace of
    [checkNeedsUpdate] are the same whatever [compareVersions] is. *)
Theorem custom_comparator_replaces_default
    (checkOptions : option CheckOptions) (w : world)
    (compare : value → value → completion number)
    (otherCompareVersions : value → value → completion number) :
  comparatorOf checkOptions = Some compare →
  checkNeedsUpdate SpInAppUpdates compareVersions checkOptions w
  = checkNeedsUpdate SpInAppUpdates otherCompareVersions checkOptions w.
Proof.
  intros Hcmp. unfold checkNeedsUpdate, onAvailabilityInfo.
  by rewrite Hcmp.
Qed.

(** X6.  [checkNeedsUpdate] throws to its caller exactly when
    [curVersion] is falsy; every later failure comes as a rejected
    promise. *)
Theorem throws_iff_curVersion_missing
    (checkOptions : option CheckOptions) (w : world) :
  (∃ e w',
     checkNeedsUpdate SpInAppUpdates compareVersions checkOptions w
     = (Throws e, w'))
  ↔ truthy (curVersionOf checkOptions) = false.
Proof.
  split.
  - intros (e & w' & Hrun).
    destruct (truthy (curVersionOf checkOptions)) eqn:Hcur; [| done].
    rewrite (checkNeedsUpdate_run _ _ _ _ Hcur) in Hrun.
    destruct (Native.checkNeedsUpdate SpInAppUpdates); [| done].
    by destruct (onAvailabilityInfo _ _ _ _ _ _ _) as [[] ?].
  - intros Hcur. rewrite (checkNeedsUpdate_falsy_run _ _ _ _ Hcur). eauto.
Qed.

(** X7.  Every failure of [checkNeedsUpdate], thrown or rejected, is an
    error tagged with the operation name. *)
Theorem failures_are_tagged
    (checkOptions : option CheckOptions) (w w' : world) (e : exn) :
  checkNeedsUpdate SpInAppUpdates compareVersions checkOptions w
  = (Throws e, w')
  ∨ checkNeedsUpdate SpInAppUpdates compareVersions checkOptions w
    = (Returns (Rejected e), w') →
  ∃ cause, e = Tagged "checkNeedsUpdate" cause.
Proof.
  destruct (truthy (curVersionOf checkOptions)) eqn:Hcur.
  - rewrite (checkNeedsUpdate_run _ _ _ _ Hcur).
    destruct (Native.checkNeedsUpdate SpInAppUpdates) as [info | e0].
    + destruct (onAvailabilityInfo _ _ _ _ _ _ _) as [[r | e1] w1];
        intros [[=] | [=]]; subst; eauto.
    + intros [[=] | [=]]; subst; eauto.
  - rewrite (checkNeedsUpdate_falsy_run _ _ _ _ Hcur).
    intros [[=] | [=]]; subst; eauto.
Qed.

(** X8.  When the native query resolves without any info ([null] or
    [undefined]), [checkNeedsUpdate] does not fail: it resolves to "no
    update", the reason naming the status [undefined], with an empty
    [other]. *)
Theorem missing_info_means_no_update
    (checkOptions : option CheckOptions) (w : world) :
  truthy (curVersionOf checkOptions) = true →
  Native.checkNeedsUpdate SpInAppUpdates = Fulfilled None →
  checkNeedsUpdate SpInAppUpdates compareVersions checkOptions w
  = (Returns (Fulfilled
       {| shouldUpdate := false;
          storeVersion := None;
          reason :=
            Some "status: undefined means there's no new version available";
          other := ∅ |}),
     World (statusUpdateListeners w) (resultListeners w)
       (trace w ++ [NativeCheckNeedsUpdate])).
Proof.
  intros Hcur Hreply.
  rewrite (checkNeedsUpdate_run _ _ _ _ Hcur), Hreply.
  by rewrite onAvailabilityInfo_not_available.
Qed.

(** X9.  In every record [checkNeedsUpdate] resolves to, [other] holds
    the fields of the availability info, and [storeVersion] is present
    exactly when the reported status is [AVAILABLE]. *)
Theorem storeVersion_iff_available
    (checkOptions : option CheckOptions) (w w' : world)
    (r : NeedsUpdateResponseNative) :
  checkNeedsUpdate SpInAppUpdates compareVersions checkOptions w
  = (Returns (Fulfilled r), w') →
  ∃ inAppUpdateInfo,
    Native.checkNeedsUpdate SpInAppUpdates = Fulfilled inAppUpdateInfo
    ∧ other r = spread inAppUpdateInfo
    ∧ (is_Some (storeVersion r)
       ↔ statusOf inAppUpdateInfo = AVAILABLE UPDATE_STATUS).
Proof.
  intros (info & Hreply & Hhandler)%checkNeedsUpdate_fulfilled_inv.
  exists info. split; [done |].
  apply onAvailabilityInfo_returns_inv in Hhandler
    as [(Hst & Hnone & Hother) | (Hst & Hsome & Hother)].
  - split; [done |]. rewrite Hnone. split; [by intros [? [=]] | done].
  - done.
Qed.

(** X10.  One call of [checkNeedsUpdate] calls the native module exactly
    once when [curVersion] is given, and not at all otherwise; it never
    calls a listener and leaves both registries as they are. *)
Theorem one_native_query_per_check
    (checkOptions : option CheckOptions) (w : world) :
  List.filter isNativeCall
    (trace (exec (checkNeedsUpdate SpInAppUpdates compareVersions
                    checkOptions) w))
  = List.filter isNativeCall (trace w)
    ++ (if truthy (curVersionOf checkOptions)
        then [NativeCheckNeedsUpdate] else [])
  ∧ List.filter isListenerCall
      (trace (exec (checkNeedsUpdate SpInAppUpdates compareVersions
                      checkOptions) w))
    = List.filter isListenerCall (trace w)
  ∧ statusUpdateListeners
      (exec (checkNeedsUpdate SpInAppUpdates compareVersions checkOptions) w)
    = statusUpdateListeners w
  ∧ resultListeners
      (exec (checkNeedsUpdate SpInAppUpdates compareVersions checkOptions) w)
    = resultListeners w.
Proof.
  destruct (truthy (curVersionOf checkOptions)) eqn:Hcur.
  - destruct (checkNeedsUpdate_trace SpInAppUpdates compareVersions
                checkOptions w Hcur) as (t & -> & Ht).
    simpl. rewrite !List.filter_app. simpl.
    rewrite (filter_none isCallerFunction isNativeCall t) by (done || by intros []).
    rewrite (filter_none isCallerFunction isListenerCall t)
      by (done || by intros []).
    by rewrite app_nil_r.
  - unfold exec. rewrite (checkNeedsUpdate_falsy_run _ _ _ _ Hcur). simpl.
    by rewrite app_nil_r.
Qed.

End Decision.

(** ** Decimal text and [parseInt] *)

Lemma pretty_N_char_digit (d : N) :
  (d < 10)%N →
  radixDigit 10 (pretty_N_char d) = Some (Z.of_N d)
  ∧ isWhiteSpace (pretty_N_char d) = false
  ∧ pretty_N_char d ≠ "-"%char
  ∧ pretty_N_char d ≠ "+"%char.
Proof.
  intros Hd.
  assert (d = 0 ∨ d = 1 ∨ d = 2 ∨ d = 3 ∨ d = 4 ∨ d = 5
          ∨ d = 6 ∨ d = 7 ∨ d = 8 ∨ d = 9)%N as Hcases by lia.
  repeat destruct Hcases as [-> | Hcases]; try subst d; by compute.
Qed.

(** The digits [pretty_N_go] puts in front of [s] read back as [x]. *)
Lemma parseDigits_pretty_N_go (x : N) :
  (0 < x)%N →
  ∃ k : Z, 0 ≤ k ∧ ∀ s acc,
    parseDigits 10 (pretty_N_go x s) acc
    = parseDigits 10 s (Some (default 0 acc * 10 ^ k + Z.of_N x)).
Proof.
  induction (N.lt_wf_0 x) as [x _ IH]. intros Hx.
  assert (x `mod` 10 < 10)%N as Hmod by (apply N.mod_lt; lia).
  destruct (pretty_N_char_digit _ Hmod) as (Hdigit & _).
  assert (Z.of_N x = 10 * Z.of_N (x `div` 10) + Z.of_N (x `mod` 10)) as Hx10.
  { rewrite (N.div_mod x 10) at 1 by lia. lia. }
  destruct (decide (x `div` 10 = 0)%N) as [Hz | Hnz].
  - exists 1. split; [lia |]. intros s acc.
    rewrite pretty_N_go_step by done. rewrite Hz, pretty_N_go_0.
    cbn [parseDigits]. rewrite Hdigit. do 2 f_equal. rewrite Hz in Hx10.
    rewrite Hx10. ring.
  - destruct (IH (x `div` 10)%N) as (k & Hk & Hgo);
      [apply N.div_lt; lia | lia |].
    exists (k + 1). split; [lia |]. intros s acc.
    rewrite pretty_N_go_step by done. rewrite Hgo.
    cbn [parseDigits]. rewrite Hdigit. do 2 f_equal. cbn [default].
    unfold id. rewrite Z.pow_add_r by lia. rewrite Hx10. ring.
Qed.

Lemma pretty_N_go_head (x : N) (s : string) :
  (0 < x)%N →
  ∃ d rest, (d < 10)%N ∧ pretty_N_go x s = String (pretty_N_char d) rest.
Proof.
  revert s. induction (N.lt_wf_0 x) as [x _ IH]. intros s Hx.
  rewrite pretty_N_go_step by done.
  destruct (decide (x `div` 10 = 0)%N) as [Hz | Hnz].
  - rewrite Hz, pretty_N_go_0. exists (x `mod` 10)%N, s.
    split; [apply N.mod_lt; lia | done].
  - apply IH; [apply N.div_lt; lia | by apply N.neq_0_lt_0].
Qed.

Lemma parseInt_unsigned (c : ascii) (rest : string) :
  isWhiteSpace c = false → c ≠ "-"%char → c ≠ "+"%char →
  parseInt (VString (String c rest)) 10
  = match parseDigits 10 (String c rest) None with
    | Some n => Int n
    | None => NaN
    end.
Proof.
  intros Hws Hminus Hplus. unfold parseInt.
  cbn [ToString trimStart]. rewrite Hws.
  assert (match String c rest with
          | String "-" r => (-1, r)
          | String "+" r => (1, r)
          | _ => (1, String c rest)
          end = (1, String c rest)) as ->.
  { destruct c as [[] [] [] [] [] [] [] []]; try reflexivity;
      by (exfalso; (apply Hminus || apply Hplus)). }
  cbn -[parseDigits Z.mul]. destruct (parseDigits 10 (String c rest) None);
    [| done].
  f_equal. lia.
Qed.

Lemma parseInt_negative (s : string) :
  parseInt (VString (String "-" s)) 10
  = match parseDigits 10 s None with
    | Some n => Int (- n)
    | None => NaN
    end.
Proof.
  unfold parseInt. cbn [ToString trimStart].
  replace (isWhiteSpace "-") with false by reflexivity.
  cbn -[parseDigits Z.mul]. destruct (parseDigits 10 s None); [| done].
  f_equal; lia.
Qed.

Lemma parseInt_pretty_positive (p : positive) :
  parseInt (VString (pretty_N_go (N.pos p) "")) 10 = Int (Z.pos p).
Proof.
  destruct (pretty_N_go_head (N.pos p) "") as (d & rest & Hd & Hhead);
    [lia |].
  destruct (parseDigits_pretty_N_go (N.pos p)) as (k & _ & Hdigits); [lia |].
  destruct (pretty_N_char_digit d Hd) as (_ & Hws & Hminus & Hplus).
  rewrite Hhead, (parseInt_unsigned _ _ Hws Hminus Hplus), <- Hhead.
  rewrite Hdigits. cbn. f_equal.
Qed.

(** [parseInt] reads the decimal text of an integer back. *)
Lemma parseInt_ToString (z : Z) :
  parseInt (VString (ToString (VNumber (Int z)))) 10 = Int z
  ∧ parseInt (VNumber (Int z)) 10 = Int z.
Proof.
  assert (parseInt (VString (ToString (VNumber (Int z)))) 10 = Int z) as H.
  { destruct z as [| p | p]; [reflexivity | |].
    - apply parseInt_pretty_positive.
    - pose proof (parseInt_pretty_positive p) as Hpos.
      destruct (pretty_N_go_head (N.pos p) "") as (d & rest & Hd & Hhead);
        [lia |].
      destruct (pretty_N_char_digit d Hd) as (_ & Hws & Hminus & Hplus).
      rewrite Hhead, (parseInt_unsigned _ _ Hws Hminus Hplus) in Hpos.
      change (ToString (VNumber (Int (Z.neg p))))
        with (String "-" (pretty_N_go (N.pos p) "")).
      rewrite parseInt_negative, Hhead.
      destruct (parseDigits 10 (String (pretty_N_char d) rest) None);
        [| done].
      by injection Hpos as ->. }
  split; [done |]. exact H.
Qed.

(** ** [parseInt] against base-10 parsing *)

Lemma radixDigit_decimal (c : ascii) :
  radixDigit 10 c = if isDecimalDigit c then Some (code c - 48) else None.
Proof. destruct c as [[] [] [] [] [] [] [] []]; reflexivity. Qed.

Lemma decimal_digit_leads (c : ascii) (s : string) :
  isDecimalDigit c = true →
  isWhiteSpace c = false
  ∧ unsignedText (String c s) = String c s
  ∧ signFactor (String c s) = 1.
Proof.
  intros Hc.
  destruct c as [[] [] [] [] [] [] [] []]; try discriminate Hc; done.
Qed.

(** [parseInt] with radix 10: the sign, then the leading digits. *)
Lemma parseInt_unsignedText (v : value) :
  parseInt v 10
  = match parseDigits 10 (unsignedText (trimStart (ToString v))) None with
    | Some n => Int (signFactor (trimStart (ToString v)) * n)
    | None => NaN
    end.
Proof.
  unfold parseInt. destruct (trimStart (ToString v)) as [| c r];
    [reflexivity |].
  destruct c as [[] [] [] [] [] [] [] []]; reflexivity.
Qed.

Lemma parseDigits_is_Some (R : Z) (s : string) (a : Z) :
  ∃ n, parseDigits R s (Some a) = Some n.
Proof.
  revert a. induction s as [| c s IH]; intros a; simpl; [by eauto |].
  destruct (radixDigit R c); [apply IH | by eauto].
Qed.

Lemma parseDigits_None_iff (s : string) :
  parseDigits 10 s None = None ↔ startsWithDecimalDigit s = false.
Proof.
  destruct s as [| c s]; simpl; [done |].
  rewrite radixDigit_decimal. destruct (isDecimalDigit c); [| done].
  destruct (parseDigits_is_Some 10 s (10 * 0 + (code c - 48))) as [n Hn].
  simpl in Hn |- *. rewrite Hn. by split.
Qed.

Lemma parseInt_NaN_iff (v : value) :
  parseInt v 10 = NaN ↔ nonNumeric v = true.
Proof.
  rewrite parseInt_unsignedText. unfold nonNumeric.
  rewrite negb_true_iff, <- parseDigits_None_iff.
  by destruct (parseDigits 10 _ None).
Qed.

Lemma trimStart_whitespace (ws s : string) :
  allWhiteSpace ws = true → trimStart (ws +:+ s) = trimStart s.
Proof.
  induction ws as [| c ws IH]; [done |]. simpl.
  intros [Hc Hws]%andb_true_iff. rewrite Hc. by apply IH.
Qed.

Lemma parseDigits_decimal (ds rest : string) (a : Z) :
  allDecimalDigits ds = true →
  startsWithDecimalDigit rest = false →
  parseDigits 10 (ds +:+ rest) (Some a) = Some (decimalValueFrom a ds).
Proof.
  intros Hds Hrest. revert a Hds.
  induction ds as [| c ds IH]; intros a Hds; simpl.
  - destruct rest as [| c r]; [done |]. simpl in Hrest |- *.
    by rewrite radixDigit_decimal, Hrest.
  - simpl in Hds. apply andb_true_iff in Hds as [Hc Hds].
    rewrite radixDigit_decimal, Hc. by rewrite IH.
Qed.

(** [parseInt] on white space, an optional sign, digits and a rest. *)
Lemma parseInt_decimal (v : value) (ws sgn ds rest : string) (sign : Z) :
  ToString v = ws +:+ sgn +:+ ds +:+ rest →
  allWhiteSpace ws = true →
  signOf sgn = Some sign →
  ds ≠ "" →
  allDecimalDigits ds = true →
  startsWithDecimalDigit rest = false →
  parseInt v 10 = Int (sign * decimalValue ds).
Proof.
  intros Htext Hws Hsign Hne Hds Hrest.
  destruct ds as [| c ds]; [done |]. clear Hne.
  assert (isDecimalDigit c = true) as Hc
    by (simpl in Hds; by apply andb_true_iff in Hds as [? _]).
  assert (parseDigits 10 (String c ds +:+ rest) None
          = Some (decimalValue (String c ds))) as Hdigits.
  { simpl. rewrite radixDigit_decimal, Hc.
    simpl in Hds. apply andb_true_iff in Hds as [_ Hds].
    by rewrite (parseDigits_decimal _ _ _ Hds Hrest). }
  rewrite parseInt_unsignedText, Htext, (trimStart_whitespace _ _ Hws).
  unfold signOf in Hsign.
  destruct (String.eqb_spec sgn "") as [-> | _];
    [| destruct (String.eqb_spec sgn "+") as [-> | _];
       [| destruct (String.eqb_spec sgn "-") as [-> | _]; [| done]]];
    injection Hsign as <-.
  - destruct (decimal_digit_leads c (ds +:+ rest) Hc) as (Hcw & Hu & Hf).
    change ("" +:+ String c ds +:+ rest) with (String c (ds +:+ rest)).
    cbn [trimStart]. rewrite Hcw, Hu, Hf.
    change (String c (ds +:+ rest)) with (String c ds +:+ rest).
    by rewrite Hdigits.
  - change (trimStart ("+" +:+ String c ds +:+ rest))
      with (String "+" (String c ds +:+ rest)).
    change (unsignedText (String "+" (String c ds +:+ rest)))
      with (String c ds +:+ rest).
    by rewrite Hdigits.
  - change (trimStart ("-" +:+ String c ds +:+ rest))
      with (String "-" (String c ds +:+ rest)).
    change (unsignedText (String "-" (String c ds +:+ rest)))
      with (String c ds +:+ rest).
    by rewrite Hdigits.
Qed.

Lemma parseInt_parsedBase10 (v : value) : parsedBase10 v (parseInt v 10).
Proof.
  split; [apply parseInt_NaN_iff |].
  intros ws sgn ds rest sign Htext Hws Hsign Hne Hds Hrest _.
  by apply (parseInt_decimal v ws sgn ds rest sign).
Qed.

Lemma Forall_deliveries (r : gset callback) (event : obj) :
  Forall (λ e, isListenerCall e = true)
    (map (λ cb, ListenerCall cb event) (elements r)).
Proof. induction (elements r); by constructor. Qed.

Lemma callsTo_deliveries (cb : callback) (r : gset callback) (event : obj) :
  callsTo cb (map (λ c, ListenerCall c event) (elements r))
  = if decide (cb ∈ r) then [ListenerCall cb event] else [].
Proof.
  assert (∀ l : list callback, NoDup l →
            callsTo cb (map (λ c, ListenerCall c event) l)
            = if decide (cb ∈ l) then [ListenerCall cb event] else [])
    as Hlist.
  { induction 1 as [| c l Hc _ IH]; [done |].
    unfold callsTo in *. simpl. rewrite IH. clear IH.
    case_bool_decide as Heq.
    - subst c. destruct (decide (cb ∈ l)) as [Hin | _]; [done |].
      destruct (decide (cb ∈ cb :: l)) as [_ | Hout]; [done |].
      destruct Hout. apply list_elem_of_here.
    - destruct (decide (cb ∈ l)) as [Hin | Hin];
        destruct (decide (cb ∈ c :: l)) as [Hin' | Hin']; try done.
      + destruct Hin'. by apply list_elem_of_further.
      + apply elem_of_cons in Hin' as [? | ?]; [by subst | done]. }
  rewrite (Hlist _ (NoDup_elements r)).
  destruct (decide (cb ∈ r)) as [Hin | Hin];
    destruct (decide (cb ∈ elements r)) as [Hin' | Hin']; try done.
  - destruct Hin'. by apply elem_of_elements.
  - destruct Hin. by apply elem_of_elements.
Qed.

(** ** More on event distribution *)

Lemma onIncomingNativeStatusUpdate_run event w :
  onIncomingNativeStatusUpdate event w
  = (Returns tt,
     World (statusUpdateListeners w) (resultListeners w)
       (trace w
        ++ map (λ cb, ListenerCall cb
                  (<["totalBytesToDownload" :=
                       VNumber (parseInt (get event "totalBytesToDownload") 10)]>
                     (<["bytesDownloaded" :=
                          VNumber (parseInt (get event "bytesDownloaded") 10)]>
                        event)))
             (elements (statusUpdateListeners w)))).
Proof. unfold onIncomingNativeStatusUpdate. by run_M. Qed.

Lemma onIncomingNativeResult_run event w :
  onIncomingNativeResult event w
  = (Returns tt,
     World (statusUpdateListeners w) (resultListeners w)
       (trace w
        ++ map (λ cb, ListenerCall cb event) (elements (resultListeners w)))).
Proof. unfold onIncomingNativeResult. by run_M. Qed.

Lemma addIntentSelectionListener_run cb w :
  addIntentSelectionListener cb w
  = (Returns tt,
     World (statusUpdateListeners w) ({[cb]} ∪ resultListeners w) (trace w)).
Proof. unfold addIntentSelectionListener. by run_M. Qed.

Lemma removeIntentSelectionListener_run cb w :
  removeIntentSelectionListener cb w
  = (Returns tt,
     World (statusUpdateListeners w) (resultListeners w ∖ {[cb]}) (trace w)).
Proof. unfold removeIntentSelectionListener. by run_M. Qed.

Lemma parseInt_byte_count (v : value) (z : Z) :
  v = VString (ToString (VNumber (Int z))) ∨ v = VNumber (Int z) →
  parseInt v 10 = Int z.
Proof. intros [-> | ->]; apply parseInt_ToString. Qed.

(** C6.  An incoming status event is never rejected: it is handed to
    every registered status listener, once each, with [bytesDownloaded]
    and [totalBytesToDownload] parsed as base-10 integers (a field that
    is not numeric, or missing, becomes [NaN]; the text ["1024"] becomes
    the number [1024]) and with every other field as it came. *)
Theorem status_event_normalized (event : obj) (w : world) :
  ∃ (delivered : obj) (bytesDownloaded totalBytesToDownload : number),
    onIncomingNativeStatusUpdate event w
    = (Returns tt,
       World (statusUpdateListeners w) (resultListeners w)
         (trace w
          ++ map (λ cb, ListenerCall cb delivered)
               (elements (statusUpdateListeners w))))
    ∧ (∀ cb ev,
         ListenerCall cb ev
           ∈ map (λ cb, ListenerCall cb delivered)
               (elements (statusUpdateListeners w))
         ↔ cb ∈ statusUpdateListeners w ∧ ev = delivered)
    ∧ NoDup (map (λ cb, ListenerCall cb delivered)
               (elements (statusUpdateListeners w)))
    ∧ (∀ cb, cb ∈ statusUpdateListeners w →
             callsTo cb (map (λ cb, ListenerCall cb delivered)
                           (elements (statusUpdateListeners w)))
             = [ListenerCall cb delivered])
    ∧ delivered !! "bytesDownloaded" = Some (VNumber bytesDownloaded)
    ∧ delivered !! "totalBytesToDownload"
      = Some (VNumber totalBytesToDownload)
    ∧ (∀ k, k ≠ "bytesDownloaded" → k ≠ "totalBytesToDownload" →
            delivered !! k = event !! k)
    ∧ parsedBase10 (get event "bytesDownloaded") bytesDownloaded
    ∧ parsedBase10 (get event "totalBytesToDownload") totalBytesToDownload.
Proof.
  exists (<["totalBytesToDownload" :=
              VNumber (parseInt (get event "totalBytesToDownload") 10)]>
            (<["bytesDownloaded" :=
                 VNumber (parseInt (get event "bytesDownloaded") 10)]>
               event)),
    (parseInt (get event "bytesDownloaded") 10),
    (parseInt (get event "totalBytesToDownload") 10).
  split_and!.
  - apply onIncomingNativeStatusUpdate_run.
  - intros cb ev. apply elem_of_deliveries.
  - apply NoDup_deliveries.
  - intros cb Hin. rewrite callsTo_deliveries. by rewrite decide_True.
  - rewrite lookup_insert_ne by done. by rewrite lookup_insert_eq.
  - by rewrite lookup_insert_eq.
  - intros k Hb Ht. by rewrite !lookup_insert_ne.
  - apply parseInt_parsedBase10.
  - apply parseInt_parsedBase10.
Qed.

(** X11.  Byte counts that arrive as the decimal text of an integer (as
    the Java side sends a [long]) or as that integer itself reach the
    status listeners as numbers with the same value.  The counts are
    taken within the integers a JavaScript number holds exactly. *)
Theorem byte_counts_read_back (event : obj) (w : world) (b t : Z) :
  safeInteger b → safeInteger t →
  get event "bytesDownloaded" = VString (ToString (VNumber (Int b)))
  ∨ get event "bytesDownloaded" = VNumber (Int b) →
  get event "totalBytesToDownload" = VString (ToString (VNumber (Int t)))
  ∨ get event "totalBytesToDownload" = VNumber (Int t) →
  onIncomingNativeStatusUpdate event w
  = (Returns tt,
     World (statusUpdateListeners w) (resultListeners w)
       (trace w
        ++ map (λ cb, ListenerCall cb
                  (<["totalBytesToDownload" := VNumber (Int t)]>
                     (<["bytesDownloaded" := VNumber (Int b)]> event)))
             (elements (statusUpdateListeners w)))).
Proof.
  intros _ _ Hb Ht. rewrite onIncomingNativeStatusUpdate_run.
  by rewrite (parseInt_byte_count _ _ Hb), (parseInt_byte_count _ _ Ht).
Qed.

(** X12.  A status event whose two byte counts already are integers is
    handed to the status listeners as it came: normalising is the
    identity on normalised events. *)
Theorem normalised_event_unchanged (event : obj) (w : world) (b t : Z) :
  safeInteger b → safeInteger t →
  event !! "bytesDownloaded" = Some (VNumber (Int b)) →
  event !! "totalBytesToDownload" = Some (VNumber (Int t)) →
  onIncomingNativeStatusUpdate event w
  = (Returns tt,
     World (statusUpdateListeners w) (resultListeners w)
       (trace w
        ++ map (λ cb, ListenerCall cb event)
             (elements (statusUpdateListeners w)))).
Proof.
  intros _ _ Hb Ht. rewrite onIncomingNativeStatusUpdate_run.
  unfold get. rewrite Hb, Ht. simpl.
  rewrite !(proj2 (parseInt_ToString _)).
  rewrite (insert_id event "bytesDownloaded") by done.
  by rewrite (insert_id event "totalBytesToDownload").
Qed.

(** X13.  After [addStatusUpdateListener cb], also when [cb] was
    registered before, the next status event calls [cb] exactly once:
    the event adds calls of listeners only, and the one call of [cb]
    among them carries the event with its two byte counts parsed and
    its other fields as they came.  After [removeStatusUpdateListener
    cb] the next status event does not call [cb] at all. *)
Theorem status_listener_lifecycle (cb : callback) (event : obj) (w : world) :
  (∃ (t : list effect) (delivered : obj)
     (bytesDownloaded totalBytesToDownload : number),
     trace (exec (onIncomingNativeStatusUpdate event)
              (exec (addStatusUpdateListener cb) w))
     = trace (exec (addStatusUpdateListener cb) w) ++ t
     ∧ Forall (λ e, isListenerCall e = true) t
     ∧ callsTo cb t = [ListenerCall cb delivered]
     ∧ delivered !! "bytesDownloaded" = Some (VNumber bytesDownloaded)
     ∧ delivered !! "totalBytesToDownload"
       = Some (VNumber totalBytesToDownload)
     ∧ (∀ k, k ≠ "bytesDownloaded" → k ≠ "totalBytesToDownload" →
             delivered !! k = event !! k)
     ∧ parsedBase10 (get event "bytesDownloaded") bytesDownloaded
     ∧ parsedBase10 (get event "totalBytesToDownload") totalBytesToDownload)
  ∧ (∃ t,
       trace (exec (onIncomingNativeStatusUpdate event)
                (exec (removeStatusUpdateListener cb) w))
       = trace (exec (removeStatusUpdateListener cb) w) ++ t
       ∧ Forall (λ e, isListenerCall e = true) t
       ∧ callsTo cb t = []).
Proof.
  unfold exec. split.
  - rewrite addStatusUpdateListener_run, onIncomingNativeStatusUpdate_run.
    simpl. eexists _, _, _, _. split; [reflexivity |].
    split; [apply Forall_deliveries |]. split_and!.
    + rewrite callsTo_deliveries. rewrite decide_True; [reflexivity |].
      apply elem_of_union_l. by apply elem_of_singleton.
    + rewrite lookup_insert_ne by done. by rewrite lookup_insert_eq.
    + by rewrite lookup_insert_eq.
    + intros k Hb Ht. by rewrite !lookup_insert_ne.
    + apply parseInt_parsedBase10.
    + apply parseInt_parsedBase10.
  - rewrite removeStatusUpdateListener_run, onIncomingNativeStatusUpdate_run.
    simpl. eexists. split; [reflexivity |].
    split; [apply Forall_deliveries |].
    rewrite callsTo_deliveries. rewrite decide_False; [done |].
    intros [_ Hne]%elem_of_difference. by apply Hne, elem_of_singleton.
Qed.

(** X14.  [addIntentSelectionListener] and
    [removeIntentSelectionListener] add nothing to the trace (no call into
    the native module, unlike the status pair) and leave the status
    registry alone.  After [addIntentSelectionListener cb], also when
    [cb] was registered before, the next result event calls [cb] exactly
    once, with the event as it came; after
    [removeIntentSelectionListener cb] it does not call [cb] at all. *)
Theorem result_listener_lifecycle (cb : callback) (event : obj) (w : world) :
  trace (exec (addIntentSelectionListener cb) w) = trace w
  ∧ trace (exec (removeIntentSelectionListener cb) w) = trace w
  ∧ statusUpdateListeners (exec (addIntentSelectionListener cb) w)
    = statusUpdateListeners w
  ∧ statusUpdateListeners (exec (removeIntentSelectionListener cb) w)
    = statusUpdateListeners w
  ∧ (∃ t,
       trace (exec (onIncomingNativeResult event)
                (exec (addIntentSelectionListener cb) w))
       = trace w ++ t
       ∧ Forall (λ e, isListenerCall e = true) t
       ∧ callsTo cb t = [ListenerCall cb event])
  ∧ (∃ t,
       trace (exec (onIncomingNativeResult event)
                (exec (removeIntentSelectionListener cb) w))
       = trace w ++ t
       ∧ Forall (λ e, isListenerCall e = true) t
       ∧ callsTo cb t = []).
Proof.
  unfold exec.
  rewrite addIntentSelectionListener_run, removeIntentSelectionListener_run.
  rewrite !onIncomingNativeResult_run. simpl. split_and!; try done.
  - eexists. split; [reflexivity |]. split; [apply Forall_deliveries |].
    rewrite callsTo_deliveries. rewrite decide_True; [reflexivity |].
    apply elem_of_union_l. by apply elem_of_singleton.
  - eexists. split; [reflexivity |]. split; [apply Forall_deliveries |].
    rewrite callsTo_deliveries. rewrite decide_False; [done |].
    intros [_ Hne]%elem_of_difference. by apply Hne, elem_of_singleton.
Qed.

(** ** Sessions *)

Lemma subscriptionCalls_app t1 t2 :
  subscriptionCalls (t1 ++ t2) = subscriptionCalls t1 ++ subscriptionCalls t2.
Proof. apply omap_app. Qed.

Lemma subscriptionCalls_none (P : effect → bool) t :
  (∀ b, P (NativeSetStatusUpdateSubscription b) = false) →
  Forall (λ e, P e = true) t → subscriptionCalls t = [].
Proof.
  intros HP. induction 1 as [| e t He _ IH]; [done |].
  destruct e; simpl; try done. by rewrite HP in He.
Qed.

Lemma startUpdate_trace S updateOptions w :
  ∃ t,
    exec (startUpdate S updateOptions) w
    = World (statusUpdateListeners w) (resultListeners w) (trace w ++ t)
    ∧ (t = [] ∨ ∃ v, t = [NativeStartUpdate v]).
Proof.
  unfold exec, startUpdate, SpInAppUpdates_startUpdate.
  destruct (negb _ && negb _).
  - exists []. run_M. rewrite app_nil_r, world_eta. eauto.
  - eexists. run_M.
    destruct (Native.startUpdate S _); simpl; split; eauto.
Qed.

Section Session.

Context (SpInAppUpdates : Native.t).
Context (compareVersions : value → value → completion number).

(** What one use adds to the trace. *)
Lemma perform_trace c w :
  ∃ t,
    trace (perform SpInAppUpdates compareVersions c w) = trace w ++ t
    ∧ match c with
      | CallAddStatusUpdateListener _ =>
          t = [NativeSetStatusUpdateSubscription true]
      | CallRemoveStatusUpdateListener cb =>
          t = if bool_decide (statusUpdateListeners w ∖ {[cb]} = ∅)
              then [NativeSetStatusUpdateSubscription false] else []
      | CallAddIntentSelectionListener _
      | CallRemoveIntentSelectionListener _ => t = []
      | CallCheckNeedsUpdate _ =>
          t = [] ∨ ∃ t', t = NativeCheckNeedsUpdate :: t'
                         ∧ Forall (λ e, isCallerFunction e = true) t'
      | CallStartUpdate _ => t = [] ∨ ∃ v, t = [NativeStartUpdate v]
      | CallInstallUpdate => t = [NativeInstallUpdate]
      | IncomingStatusUpdate _ | IncomingResult _ =>
          Forall (λ e, isListenerCall e = true) t
      end.
Proof.
  destruct c as [cb | cb | cb | cb | opts | opts | | event | event];
    cbn [perform]; unfold exec.
  - rewrite addStatusUpdateListener_run. eauto.
  - rewrite removeStatusUpdateListener_run. eauto.
  - rewrite addIntentSelectionListener_run. exists [].
    by rewrite app_nil_r.
  - rewrite removeIntentSelectionListener_run. exists [].
    by rewrite app_nil_r.
  - destruct (truthy (from_option curVersion VUndefined opts)) eqn:Hcur.
    + destruct (checkNeedsUpdate_trace SpInAppUpdates compareVersions
                  opts w Hcur) as (t & Hw & Ht).
      unfold exec in Hw. rewrite Hw. eauto 6.
    + rewrite (checkNeedsUpdate_falsy_run _ _ _ _ Hcur). exists [].
      rewrite app_nil_r. eauto.
  - destruct (startUpdate_trace SpInAppUpdates opts w) as (t & Hw & Ht).
    unfold exec in Hw. rewrite Hw. eauto.
  - eexists. split; [reflexivity | done].
  - rewrite onIncomingNativeStatusUpdate_run. eexists.
    split; [reflexivity | apply Forall_deliveries].
  - rewrite onIncomingNativeResult_run. eexists.
    split; [reflexivity | apply Forall_deliveries].
Qed.

(** What one use does to the registries. *)
Lemma perform_registries c w :
  statusUpdateListeners (perform SpInAppUpdates compareVersions c w)
  = match c with
    | CallAddStatusUpdateListener cb => {[cb]} ∪ statusUpdateListeners w
    | CallRemoveStatusUpdateListener cb => statusUpdateListeners w ∖ {[cb]}
    | _ => statusUpdateListeners w
    end
  ∧ resultListeners (perform SpInAppUpdates compareVersions c w)
    = match c with
      | CallAddIntentSelectionListener cb => {[cb]} ∪ resultListeners w
      | CallRemoveIntentSelectionListener cb => resultListeners w ∖ {[cb]}
      | _ => resultListeners w
      end.
Proof.
  destruct c as [cb | cb | cb | cb | opts | opts | | event | event];
    cbn [perform]; unfold exec.
  - by rewrite addStatusUpdateListener_run.
  - by rewrite removeStatusUpdateListener_run.
  - by rewrite addIntentSelectionListener_run.
  - by rewrite removeIntentSelectionListener_run.
  - destruct (only_checkNeedsUpdate SpInAppUpdates compareVersions opts w)
      as (t & -> & _). done.
  - destruct (only_startUpdate SpInAppUpdates opts w) as (t & -> & _). done.
  - done.
  - by rewrite onIncomingNativeStatusUpdate_run.
  - by rewrite onIncomingNativeResult_run.
Qed.

Lemma session_snoc cs c w :
  session SpInAppUpdates compareVersions (cs ++ [c]) w
  = perform SpInAppUpdates compareVersions c
      (session SpInAppUpdates compareVersions cs w).
Proof. unfold session. by rewrite fold_left_app. Qed.

(** X15.  Whatever is done with a fresh instance (public methods called
    and events coming in, in any order and number), the native status
    stream agrees with the status registry afterwards: the last
    [setStatusUpdateSubscription] call was [true] if a status listener is
    registered, and was not [true] (it was [false], or there was none) if
    none is. *)
Theorem stream_agrees_with_registry (cs : list apiCall) :
  streamAgrees (session SpInAppUpdates compareVersions cs fresh).
Proof.
  induction cs as [| c cs IH] using rev_ind.
  - split; [done |]. by simpl.
  - rewrite session_snoc.
    set (w := session SpInAppUpdates compareVersions cs fresh) in *.
    destruct (perform_trace c w) as (t & Htrace & Ht).
    destruct (perform_registries c w) as [Hst _].
    destruct IH as [IHon IHoff]. unfold streamAgrees.
    rewrite Htrace, Hst, subscriptionCalls_app.
    destruct c as [cb | cb | cb | cb | opts | opts | | event | event].
    + subst t. simpl. split; [by rewrite last_snoc |].
      intros [He _]%empty_union_L. by apply non_empty_singleton_L in He.
    + subst t. case_bool_decide as Hempty; simpl.
      * split; [done | by rewrite last_snoc].
      * rewrite app_nil_r. split; [| done].
        intros _. apply IHon. intros Hw. apply Hempty.
        rewrite Hw. apply subseteq_empty_difference_L, empty_subseteq.
    + subst t. simpl. by rewrite app_nil_r.
    + subst t. simpl. by rewrite app_nil_r.
    + destruct Ht as [-> | (t' & -> & Ht')]; simpl.
      * by rewrite app_nil_r.
      * rewrite (subscriptionCalls_none isCallerFunction t') by done.
        by rewrite app_nil_r.
    + destruct Ht as [-> | (v & ->)]; simpl; by rewrite app_nil_r.
    + subst t. simpl. by rewrite app_nil_r.
    + rewrite (subscriptionCalls_none isListenerCall t) by done.
      by rewrite app_nil_r.
    + rewrite (subscriptionCalls_none isListenerCall t) by done.
      by rewrite app_nil_r.
Qed.

(** X16.  The status registry is changed by [addStatusUpdateListener]
    and [removeStatusUpdateListener] only, and the result registry by
    [addIntentSelectionListener] and [removeIntentSelectionListener]
    only: no other method and no incoming event adds or drops a
    listener. *)
Theorem registries_change_only_by_their_methods (c : apiCall) (w : world) :
  (touchesStatusListeners c = false →
   statusUpdateListeners (perform SpInAppUpdates compareVersions c w)
   = statusUpdateListeners w)
  ∧ (touchesResultListeners c = false →
     resultListeners (perform SpInAppUpdates compareVersions c w)
     = resultListeners w).
Proof.
  destruct (perform_registries c w) as [-> ->].
  by destruct c.
Qed.

(** X17.  Listeners are called by incoming events only, and an incoming
    event does nothing but call listeners: no public method calls a
    listener, and no event calls the native module. *)
Theorem listeners_called_only_by_events (c : apiCall) (w : world) :
  (isIncomingEvent c = false →
   List.filter isListenerCall
     (trace (perform SpInAppUpdates compareVersions c w))
   = List.filter isListenerCall (trace w))
  ∧ (isIncomingEvent c = true →
     List.filter isNativeCall
       (trace (perform SpInAppUpdates compareVersions c w))
     = List.filter isNativeCall (trace w)).
Proof.
  destruct (perform_trace c w) as (t & -> & Ht).
  rewrite !List.filter_app.
  destruct c as [cb | cb | cb | cb | opts | opts | | event | event];
    simpl; split; intros Hc; try discriminate Hc; clear Hc.
  - subst t. by rewrite app_nil_r.
  - subst t. case_bool_decide; by rewrite app_nil_r.
  - subst t. by rewrite app_nil_r.
  - subst t. by rewrite app_nil_r.
  - destruct Ht as [-> | (t' & -> & Ht')]; simpl; [by rewrite app_nil_r |].
    rewrite (filter_none isCallerFunction isListenerCall t')
      by (done || by intros []).
    by rewrite app_nil_r.
  - destruct Ht as [-> | (v & ->)]; by rewrite app_nil_r.
  - subst t. by rewrite app_nil_r.
  - rewrite (filter_none isListenerCall isNativeCall t)
      by (done || by intros []).
    by rewrite app_nil_r.
  - rewrite (filter_none isListenerCall isNativeCall t)
      by (done || by intros []).
    by rewrite app_nil_r.
Qed.

(** X18.  The trace only grows, and one use of the instance (a method
    call or an incoming event) calls the native module at most once. *)
Theorem at_most_one_native_call (c : apiCall) (w : world) :
  ∃ t,
    trace (perform SpInAppUpdates compareVersions c w) = trace w ++ t
    ∧ (length (List.filter isNativeCall t) ≤ 1)%nat.
Proof.
  destruct (perform_trace c w) as (t & Htrace & Ht).
  exists t. split; [done |].
  destruct c as [cb | cb | cb | cb | opts | opts | | event | event].
  - subst t. simpl. lia.
  - subst t. case_bool_decide; simpl; lia.
  - subst t. simpl. lia.
  - subst t. simpl. lia.
  - destruct Ht as [-> | (t' & -> & Ht')]; simpl; [lia |].
    rewrite (filter_none isCallerFunction isNativeCall t')
      by (done || by intros []).
    simpl. lia.
  - destruct Ht as [-> | (v & ->)]; simpl; lia.
  - subst t. simpl. lia.
  - rewrite (filter_none isListenerCall isNativeCall t)
      by (done || by intros []).
    simpl. lia.
  - rewrite (filter_none isListenerCall isNativeCall t)
      by (done || by intros []).
    simpl. lia.
Qed.

End Session.

(** ** The further properties on sample calls *)

(** X1, for a store that cannot be reached. *)
Lemma provider_rejection_is_tagged_witness :
  checkNeedsUpdate (playCore (Rejected (Raw (VString "no store"))))
    Utils.compareVersions (optionsWith (VString "1.0.0") None) fresh
  = (Returns (Rejected (Tagged "checkNeedsUpdate" (Raw (VString "no store")))),
     World ∅ ∅ [NativeCheckNeedsUpdate]).
Proof.
  apply (provider_rejection_is_tagged
           (playCore (Rejected (Raw (VString "no store"))))
           Utils.compareVersions (optionsWith (VString "1.0.0") None) fresh
           (Raw (VString "no store"))).
  - reflexivity.
  - reflexivity.
Defined.

(** X2, for a store at 2.0.0 and an app at 1.0.0. *)
Lemma decision_follows_comparison_witness :
  ∃ r,
    checkNeedsUpdate (storeReports (VNumber (Int 2)) (VString "2.0.0"))
      Utils.compareVersions (optionsWith (VString "1.0.0") None) fresh
    = (Returns (Fulfilled r),
       World ∅ ∅
         [NativeCheckNeedsUpdate;
          CompareVersionsCall (VString "2.0.0") (VString "1.0.0")])
    ∧ (shouldUpdate r = true ↔ ∃ z, Int 1 = Int z ∧ 0 < z)
    ∧ storeVersion r = Some (VString "2.0.0")
    ∧ other r = availabilityInfo (VNumber (Int 2)) (VString "2.0.0").
Proof.
  apply (decision_follows_comparison
           (storeReports (VNumber (Int 2)) (VString "2.0.0"))
           Utils.compareVersions (optionsWith (VString "1.0.0") None) fresh
           (Some (availabilityInfo (VNumber (Int 2)) (VString "2.0.0")))
           (VString "2.0.0") (Int 1)).
  - reflexivity.
  - reflexivity.
  - reflexivity.
  - reflexivity.
  - reflexivity.
Defined.

(** X3, for a converter that throws. *)
Lemma converter_exception_rejects_witness :
  checkNeedsUpdate (storeReports (VNumber (Int 2)) (VNumber (Int 42)))
    Utils.compareVersions
    (optionsWith (VString "1.0.0") (Some unknownVersion)) fresh
  = (Returns (Rejected
       (Tagged "checkNeedsUpdate" (Raw (VString "unknown version code")))),
     World ∅ ∅ [NativeCheckNeedsUpdate;
                ToSemverConverterCall (VNumber (Int 42))]).
Proof.
  apply (converter_exception_rejects
           (storeReports (VNumber (Int 2)) (VNumber (Int 42)))
           Utils.compareVersions
           (optionsWith (VString "1.0.0") (Some unknownVersion)) fresh
           (Some (availabilityInfo (VNumber (Int 2)) (VNumber (Int 42))))
           unknownVersion (VString "unknown version code")).
  - reflexivity.
  - reflexivity.
  - reflexivity.
  - reflexivity.
  - reflexivity.
Defined.

(** X4, for the default comparator on a version code that is no
    semantic version, with no converter given. *)
Lemma comparator_exception_rejects_witness :
  ∃ w',
    checkNeedsUpdate (storeReports (VNumber (Int 2)) (VNumber (Int 42)))
      Utils.compareVersions (optionsWith (VString "1.0.0") None) fresh
    = (Returns (Rejected
         (Tagged "checkNeedsUpdate" (Raw (VString "invalid version")))),
       w').
Proof.
  apply (comparator_exception_rejects
           (storeReports (VNumber (Int 2)) (VNumber (Int 42)))
           Utils.compareVersions (optionsWith (VString "1.0.0") None) fresh
           (Some (availabilityInfo (VNumber (Int 2)) (VNumber (Int 42))))
           (VNumber (Int 42)) (VString "invalid version")).
  - reflexivity.
  - reflexivity.
  - reflexivity.
  - reflexivity.
  - reflexivity.
Defined.

(** X5, for a custom comparator and two default ones. *)
Lemma custom_comparator_replaces_default_witness :
  checkNeedsUpdate (storeReports (VNumber (Int 2)) (VString "1.0.0"))
    Utils.compareVersions
    (optionsComparing (VString "1.0.0") storeIsNewer) fresh
  = checkNeedsUpdate (storeReports (VNumber (Int 2)) (VString "1.0.0"))
      (λ _ _, Abrupt VUndefined)
      (optionsComparing (VString "1.0.0") storeIsNewer) fresh.
Proof.
  apply (custom_comparator_replaces_default
           (storeReports (VNumber (Int 2)) (VString "1.0.0"))
           Utils.compareVersions
           (optionsComparing (VString "1.0.0") storeIsNewer) fresh
           storeIsNewer (λ _ _, Abrupt VUndefined)).
  reflexivity.
Defined.

(** X7, for a call without options. *)
Lemma failures_are_tagged_witness :
  ∃ cause,
    Tagged "checkNeedsUpdate"
      (Raw (VString "You have to include at least the curVersion to the options passed in checkNeedsUpdate"))
    = Tagged "checkNeedsUpdate" cause.
Proof.
  apply (failures_are_tagged (playCore (Fulfilled None))
           Utils.compareVersions None fresh fresh).
  left. reflexivity.
Defined.

(** X8, for a store that answers nothing. *)
Lemma missing_info_means_no_update_witness :
  checkNeedsUpdate (playCore (Fulfilled None)) Utils.compareVersions
    (optionsWith (VString "1.0.0") None) fresh
  = (Returns (Fulfilled
       {| shouldUpdate := false;
          storeVersion := None;
          reason :=
            Some "status: undefined means there's no new version available";
          other := ∅ |}),
     World ∅ ∅ [NativeCheckNeedsUpdate]).
Proof.
  apply (missing_info_means_no_update (playCore (Fulfilled None))
           Utils.compareVersions (optionsWith (VString "1.0.0") None) fresh).
  - reflexivity.
  - reflexivity.
Defined.

(** X9, for a store that reports no update. *)
Lemma storeVersion_iff_available_witness :
  ∃ inAppUpdateInfo,
    Fulfilled (Some (availabilityInfo (VNumber (Int 1)) (VNumber (Int 42))))
    = Fulfilled inAppUpdateInfo
    ∧ availabilityInfo (VNumber (Int 1)) (VNumber (Int 42))
      = spread inAppUpdateInfo
    ∧ (is_Some (@None value)
       ↔ get (default ∅ inAppUpdateInfo) "updateAvailability"
         = VNumber (Int 2)).
Proof.
  apply (storeVersion_iff_available
           (storeReports (VNumber (Int 1)) (VNumber (Int 42)))
           Utils.compareVersions (optionsWith (VString "1.0.0") None)
           fresh (World ∅ ∅ [NativeCheckNeedsUpdate])
           {| shouldUpdate := false;
              storeVersion := None;
              reason :=
                Some "status: 1 means there's no new version available";
              other := availabilityInfo (VNumber (Int 1))
                         (VNumber (Int 42)) |}).
  vm_compute. reflexivity.
Defined.

(** X11, for 1024 of 2048 bytes sent as text. *)
Lemma byte_counts_read_back_witness :
  onIncomingNativeStatusUpdate
    (downloadingEvent (VString "1024") (VString "2048"))
    (World {[5%nat]} ∅ [])
  = (Returns tt,
     World {[5%nat]} ∅
       ([] ++ map (λ cb, ListenerCall cb
                     (<["totalBytesToDownload" := VNumber (Int 2048)]>
                        (<["bytesDownloaded" := VNumber (Int 1024)]>
                           (downloadingEvent (VString "1024")
                              (VString "2048")))))
                (elements (statusUpdateListeners (World {[5%nat]} ∅ []))))).
Proof.
  refine (byte_counts_read_back
            (downloadingEvent (VString "1024") (VString "2048"))
            (World {[5%nat]} ∅ []) 1024 2048 _ _ _ _).
  - unfold safeInteger. lia.
  - unfold safeInteger. lia.
  - left. reflexivity.
  - left. reflexivity.
Defined.

(** X12, for 1024 of 2048 bytes sent as numbers. *)
Lemma normalised_event_unchanged_witness :
  onIncomingNativeStatusUpdate
    (downloadingEvent (VNumber (Int 1024)) (VNumber (Int 2048)))
    (World {[5%nat]} ∅ [])
  = (Returns tt,
     World {[5%nat]} ∅
       ([] ++ map (λ cb, ListenerCall cb
                     (downloadingEvent (VNumber (Int 1024))
                        (VNumber (Int 2048))))
                (elements (statusUpdateListeners (World {[5%nat]} ∅ []))))).
Proof.
  refine (normalised_event_unchanged
            (downloadingEvent (VNumber (Int 1024)) (VNumber (Int 2048)))
            (World {[5%nat]} ∅ []) 1024 2048 _ _ _ _).
  - unfold safeInteger. lia.
  - unfold safeInteger. lia.
  - reflexivity.
  - reflexivity.
Defined.

(** X16, for a version check and for an incoming result event. *)
Lemma registries_change_only_by_their_methods_witness :
  statusUpdateListeners
    (perform (playCore (Fulfilled None)) Utils.compareVersions
       (CallCheckNeedsUpdate (optionsWith (VString "1.0.0") None))
       (World {[5%nat]} {[6%nat]} []))
  = {[5%nat]}
  ∧ resultListeners
      (perform (playCore (Fulfilled None)) Utils.compareVersions
         (IncomingResult ∅) (World {[5%nat]} {[6%nat]} []))
    = {[6%nat]}.
Proof.
  split.
  - refine (proj1 (registries_change_only_by_their_methods
                      (playCore (Fulfilled None)) Utils.compareVersions
                      (CallCheckNeedsUpdate
                         (optionsWith (VString "1.0.0") None))
                      (World {[5%nat]} {[6%nat]} [])) _).
    reflexivity.
  - refine (proj2 (registries_change_only_by_their_methods
                      (playCore (Fulfilled None)) Utils.compareVersions
                      (IncomingResult ∅) (World {[5%nat]} {[6%nat]} [])) _).
    reflexivity.
Defined.

(** X17, for an update started and for an incoming status event. *)
Lemma listeners_called_only_by_events_witness :
  List.filter isListenerCall
    (trace (perform (playCore (Fulfilled None)) Utils.compareVersions
              (CallStartUpdate (Some {| updateType := VNumber (Int 0) |}))
              (World {[5%nat]} {[6%nat]} [])))
  = List.filter isListenerCall []
  ∧ List.filter isNativeCall
      (trace (perform (playCore (Fulfilled None)) Utils.compareVersions
                (IncomingStatusUpdate ∅) (World {[5%nat]} {[6%nat]} [])))
    = List.filter isNativeCall [].
Proof.
  split.
  - refine (proj1 (listeners_called_only_by_events
                      (playCore (Fulfilled None)) Utils.compareVersions
                      (CallStartUpdate
                         (Some {| updateType := VNumber (Int 0) |}))
                      (World {[5%nat]} {[6%nat]} [])) _).
    reflexivity.
  - refine (proj2 (listeners_called_only_by_events
                      (playCore (Fulfilled None)) Utils.compareVersions
                      (IncomingStatusUpdate ∅)
                      (World {[5%nat]} {[6%nat]} [])) _).
    reflexivity.
Defined.

(** A session on a fresh instance, with its trace. *)
Example session_trace :
  trace (session (storeReports (VNumber (Int 2)) (VString "2.0.0"))
           Utils.compareVersions
           [CallAddStatusUpdateListener 5;
            IncomingStatusUpdate
              (downloadingEvent (VString "10") (VString "20"));
            CallCheckNeedsUpdate (optionsWith (VString "1.0.0") None);
            CallRemoveStatusUpdateListener 5;
            IncomingStatusUpdate
              (downloadingEvent (VString "20") (VString "20"));
            CallInstallUpdate]
           fresh)
  = [NativeSetStatusUpdateSubscription true;
     ListenerCall 5 (downloadingEvent (VNumber (Int 10)) (VNumber (Int 20)));
     NativeCheckNeedsUpdate;
     CompareVersionsCall (VString "2.0.0") (VString "1.0.0");
     NativeSetStatusUpdateSubscription false;
     NativeInstallUpdate].
Proof. vm_compute. reflexivity. Qed.

(** C6, for the event of 1024 of 2048 bytes sent as text, with one
    listener. *)
Lemma status_event_normalized_witness :
  ∃ delivered,
    onIncomingNativeStatusUpdate
      (downloadingEvent (VString "1024") (VString "2048"))
      (World {[5%nat]} ∅ [])
    = (Returns tt, World {[5%nat]} ∅ [ListenerCall 5 delivered])
    ∧ delivered !! "bytesDownloaded" = Some (VNumber (Int 1024))
    ∧ delivered !! "totalBytesToDownload" = Some (VNumber (Int 2048))
    ∧ delivered !! "status" = Some (VNumber (Int 2)).
Proof.
  destruct (status_event_normalized
              (downloadingEvent (VString "1024") (VString "2048"))
              (World {[5%nat]} ∅ []))
    as (delivered & b & t & Hrun & _ & _ & _ & Hb & Ht & Hother
        & [_ Hpb] & [_ Hpt]).
  exists delivered. split_and!.
  - exact Hrun.
  - rewrite Hb. do 2 f_equal.
    refine (Hpb "" "" "1024" "" 1 _ _ _ _ _ _ _);
      try reflexivity; [discriminate |].
    unfold safeInteger. vm_compute. split; discriminate.
  - rewrite Ht. do 2 f_equal.
    refine (Hpt "" "" "2048" "" 1 _ _ _ _ _ _ _);
      try reflexivity; [discriminate |].
    unfold safeInteger. vm_compute. split; discriminate.
  - rewrite Hother by discriminate. reflexivity.
Defined.

(** Byte counts that are not numeric. *)
Example nonNumeric_fields :
  nonNumeric (VString "") = true
  ∧ nonNumeric (VString "-") = true
  ∧ nonNumeric (VString " x") = true
  ∧ nonNumeric VUndefined = true
  ∧ nonNumeric (VString "  +12 bytes") = false
  ∧ nonNumeric (VNumber (Int (-3))) = false.
Proof. by vm_compute. Qed.

Example status_event_without_byte_counts :
  trace (exec (onIncomingNativeStatusUpdate
                 (<["status" := VNumber (Int 2)]> ∅))
           (World {[5%nat]} ∅ []))
  = [ListenerCall 5
       (<["status" := VNumber (Int 2)]>
          (<["bytesDownloaded" := VNumber NaN]>
             (<["totalBytesToDownload" := VNumber NaN]> ∅)))].
Proof. vm_compute. reflexivity. Qed.
